(** * chem-si-helper: the peak corrector and the HRMS validator

    A shallow embedding of [h1Component.ts] (peak parsing and correction)
    and [hrmsComponent.ts] (HRMS parsing, validation and rendering), with
    the properties their description states about them.

    Conventions of the embedding.
    - A JavaScript number is an exact rational or NaN ([JS.number]).
      Decimal literals are read exactly and [+ - * / %] are exact, so the
      embedding describes the arithmetic the program intends; where a
      concrete evaluation matters it is repeated on IEEE binary64 values
      ([B64]).  A quotient by zero, an infinity in JavaScript, is NaN
      here: the program only multiplies it by the zero divisor again or
      compares it with 0, which gives NaN and false either way.
    - A string is a sequence of bytes (UTF-8).
    - [undefined] is [None]: a capture group that took no part in a match,
      an index past the end of an array, an optional field never set.
    - The regular expressions ([utils/regex]), the multiplet tables
      ([utils/nmr]), the formula engine ([utils/formula]) and the HTML
      helpers ([utils/utils]) are not part of the two components: they are
      parameters of the sections below. *)

From Stdlib Require Import ZArith QArith Qabs Qround Lia Lqa Bool List.
From Stdlib Require Import String Ascii DecimalString.
From Stdlib Require Import Floats.SpecFloat.
From Stdlib Require DecimalN.
Import ListNotations.

Local Close Scope Q_scope.
Local Open Scope list_scope.
Local Open Scope string_scope.

(* ------------------------------------------------------------------ *)
(** ** Strings *)

Module Str.

(** [s.split(c)] for a one-character separator. *)
Fixpoint split_aux (c : ascii) (cur : string) (s : string) : list string :=
  match s with
  | EmptyString => [cur]
  | String a s' =>
      if Ascii.eqb a c then cur :: split_aux c EmptyString s'
      else split_aux c (cur ++ String a EmptyString) s'
  end.

Definition split (c : ascii) (s : string) : list string :=
  split_aux c EmptyString s.

(** [includes(s, sub)] on strings. *)
Definition includes (s sub : string) : bool :=
  match String.index 0 sub s with Some _ => true | None => false end.

(** [s.substr(-1)]: the last character, empty on the empty string. *)
Fixpoint last1 (s : string) : string :=
  match s with
  | EmptyString => EmptyString
  | String a EmptyString => s
  | String _ s' => last1 s'
  end.

Definition drop (n : nat) (s : string) : string :=
  String.substring n (String.length s - n) s.

(** The replacement patterns of [String.prototype.replace] with a string
    pattern: [$$], [$&], [$`] and [$']; there are no capture groups, so
    any other [$] stays as it is. *)
Fixpoint expand (matched before after : string) (r : string) : string :=
  match r with
  | EmptyString => EmptyString
  | String "$" (String "$" r') => String "$" (expand matched before after r')
  | String "$" (String "&" r') => matched ++ expand matched before after r'
  | String "$" (String "`" r') => before ++ expand matched before after r'
  | String "$" (String "'" r') => after ++ expand matched before after r'
  | String a r' => String a (expand matched before after r')
  end.

(** The occurrence of [pattern] at index [i] of [s] replaced. *)
Definition replaceAt (i : nat) (s pattern replacement : string) : string :=
  let before := String.substring 0 i s in
  let after := drop (i + String.length pattern) s in
  before ++ expand pattern before after replacement ++ after.

(** lodash [replace(s, pattern, replacement)] with a string pattern:
    the first occurrence only. *)
Definition replace (s pattern replacement : string) : string :=
  match String.index 0 pattern s with
  | None => s
  | Some i => replaceAt i s pattern replacement
  end.

(** lodash [includes(list, value)] for a list of strings. *)
Definition mem (l : list string) (s : string) : bool :=
  existsb (String.eqb s) l.

(** [String(n)] for a natural number. *)
Definition of_nat (n : nat) : string :=
  NilZero.string_of_uint (Nat.to_uint n).

(** A template literal prints [undefined] for an absent value. *)
Definition of_undefined (o : option string) : string :=
  match o with Some s => s | None => "undefined" end.

End Str.

(* ------------------------------------------------------------------ *)
(** ** Numbers *)

Module JS.

Inductive number : Type :=
| NaN
| Num (q : Q).

Definition lift2 (f : Q -> Q -> Q) (x y : number) : number :=
  match x, y with
  | Num a, Num b => Num (f a b)
  | _, _ => NaN
  end.

Definition add := lift2 Qplus.
Definition sub := lift2 Qminus.
Definition mul := lift2 Qmult.

Definition div (x y : number) : number :=
  match x, y with
  | Num a, Num b => if Qeq_bool b 0 then NaN else Num (a / b)%Q
  | _, _ => NaN
  end.

(** Truncation toward zero. *)
Definition trunc (q : Q) : Z :=
  if Qle_bool 0 q then Qfloor q else Qceiling q.

(** [x % y]: the remainder of the truncated quotient, NaN for [y = 0]. *)
Definition rem (x y : number) : number :=
  match x, y with
  | Num a, Num b =>
      if Qeq_bool b 0 then NaN
      else Num (a - b * inject_Z (trunc (a / b)))%Q
  | _, _ => NaN
  end.

Definition neg (x : number) : number :=
  match x with Num a => Num (- a)%Q | NaN => NaN end.

Definition abs (x : number) : number :=
  match x with Num a => Num (Qabs a) | NaN => NaN end.

(** [Math.round]: the nearest integer, halves toward plus infinity. *)
Definition Math_round (x : number) : number :=
  match x with
  | Num a => Num (inject_Z (Qfloor (a + (1 # 2))%Q))
  | NaN => NaN
  end.

(** [x < y] and [x > y]: false as soon as one side is NaN. *)
Definition ltb (x y : number) : bool :=
  match x, y with
  | Num a, Num b => negb (Qle_bool b a)
  | _, _ => false
  end.

Definition gtb (x y : number) : bool := ltb y x.

(** [x === y] on numbers. *)
Definition eqb (x y : number) : bool :=
  match x, y with
  | Num a, Num b => Qeq_bool a b
  | _, _ => false
  end.

(** Truthiness of a number: neither 0 nor NaN. *)
Definition truthy (x : number) : bool :=
  match x with
  | Num a => negb (Qeq_bool a 0)
  | NaN => false
  end.

Definition of_Z (z : Z) : number := Num (inject_Z z).

Definition pow10 (n : nat) : Q := inject_Z (10 ^ Z.of_nat n).

(** lodash [round(x, precision)]: the decimal expansion is shifted by
    [precision] digits, rounded with [Math.round] and shifted back. *)
Definition round (x : number) (precision : nat) : number :=
  match x with
  | Num a =>
      Num (inject_Z (Qfloor (a * pow10 precision + (1 # 2))%Q) / pow10 precision)%Q
  | NaN => NaN
  end.

Fixpoint zeros (n : nat) : string :=
  match n with O => EmptyString | S n' => String "0" (zeros n') end.

(** [x.toFixed(f)] (Number.prototype.toFixed): the integer [n] with
    [n / 10^f] nearest to [|x|], the larger one on a tie, printed with
    [f] digits after the point.  Values from [10^21] on, which
    JavaScript prints in exponent form, are printed in full here. *)
Definition toFixed (x : number) (f : nat) : string :=
  match x with
  | NaN => "NaN"
  | Num a =>
      let s := if Qle_bool 0 a then "" else "-" in
      let n := Qfloor (Qabs a * pow10 f + (1 # 2))%Q in
      let m := NilZero.string_of_uint (N.to_uint (Z.to_N n)) in
      let k := String.length m in
      let m := if Nat.leb k f then zeros (f + 1 - k) ++ m else m in
      let k := String.length m in
      match f with
      | O => s ++ m
      | _ => s ++ String.substring 0 (k - f) m ++ "." ++ Str.drop (k - f) m
      end
  end.

(** *** Reading a number ([Number(s)], unary [+s]) *)

Definition is_ws (c : ascii) : bool :=
  let n := nat_of_ascii c in
  (Nat.eqb n 32 || (Nat.leb 9 n && Nat.leb n 13))%bool.

Fixpoint ltrim (s : string) : string :=
  match s with
  | String a s' => if is_ws a then ltrim s' else s
  | EmptyString => EmptyString
  end.

Fixpoint rtrim (s : string) : string :=
  match s with
  | EmptyString => EmptyString
  | String a s' =>
      match rtrim s' with
      | EmptyString => if is_ws a then EmptyString else String a EmptyString
      | t => String a t
      end
  end.

Definition digit (c : ascii) : option Z :=
  let n := nat_of_ascii c in
  if (Nat.leb 48 n && Nat.leb n 57)%bool then Some (Z.of_nat (n - 48)) else None.

(** Reads a run of decimal digits: its value, its length, the rest. *)
Fixpoint digits (s : string) (acc : Z) (len : nat) : Z * nat * string :=
  match s with
  | EmptyString => (acc, len, s)
  | String a s' =>
      match digit a with
      | Some d => digits s' (10 * acc + d)%Z (S len)
      | None => (acc, len, s)
      end
  end.

Definition sign (s : string) : bool * string :=
  match s with
  | String "-" s' => (true, s')
  | String "+" s' => (false, s')
  | _ => (false, s)
  end.

Definition exponent (s : string) : option Z :=
  match s with
  | EmptyString => Some 0%Z
  | String c s' =>
      if (Ascii.eqb c "e" || Ascii.eqb c "E")%bool then
        let '(neg, s1) := sign s' in
        let '(e, n, rest) := digits s1 0%Z 0 in
        match n, rest with
        | S _, EmptyString => Some (if neg then (- e)%Z else e)
        | _, _ => None
        end
      else None
  end.

(** The decimal literals of StringToNumber: white space is trimmed, the
    empty string is 0, then an optional sign, digits with an optional
    fraction (at least one digit in all) and an optional exponent.
    Anything else is NaN; the hexadecimal, octal and binary forms and
    [Infinity] are outside the embedding. *)
Definition Number (s : string) : number :=
  let t := rtrim (ltrim s) in
  match t with
  | EmptyString => Num 0
  | _ =>
      let '(neg, t1) := sign t in
      let '(ip, ni, r1) := digits t1 0%Z 0 in
      let '(fp, nf, r2) :=
        match r1 with
        | String "." r => digits r 0%Z 0
        | _ => (0%Z, 0, r1)
        end in
      match ni + nf with
      | O => NaN
      | _ =>
          match exponent r2 with
          | None => NaN
          | Some e =>
              let v := ((inject_Z ip + inject_Z fp / pow10 nf)
                        * Qpower (10 # 1) e)%Q in
              Num (Qred (if neg then (- v)%Q else v))
          end
      end
  end.

(** [Number(v)] for a value that may be [undefined]. *)
Definition Number_opt (o : option string) : number :=
  match o with Some s => Number s | None => NaN end.

(** lodash [compact] on numbers drops 0 and NaN. *)
Definition compact (l : list number) : list number := filter truthy l.

End JS.

(* ------------------------------------------------------------------ *)
(** ** What both components share *)

(** Modelled from the spec: the classification of an annotation
    ([HighlightType] of utils/nmr), Success, Warning or Danger. *)
Inductive HighlightType : Type := Success | Warning | Danger.

(** Modelled from the spec: the message language ([Languages] of
    utils/language).  Every message table holds the English text first,
    so English is index 0 and Chinese index 1. *)
Inductive Languages : Type := English | Chinese.

(** An entry of a message table, indexed by the language. *)
Definition pick (lang : Languages) (m : string * string) : string :=
  match lang with English => fst m | Chinese => snd m end.

(** The result of [s.match(re)] without the [g] flag: the whole match at
    index 0, then the capture groups. *)
Definition RegExpMatchArray : Type := list (option string).

(** [m[i]], [undefined] past the end. *)
Definition group (m : RegExpMatchArray) (i : nat) : option string :=
  nth i m None.

(** A statement either completes or throws a TypeError (a property read
    on [undefined]). *)
Inductive completion (A : Type) : Type :=
| Normal (a : A)
| TypeError.
Arguments Normal {A} a.
Arguments TypeError {A}.

Definition bind {A B : Type} (c : completion A) (k : A -> completion B)
  : completion B :=
  match c with Normal a => k a | TypeError => TypeError end.

Notation "x <- c ;; k" := (bind c (fun x => k))
  (at level 61, c at next level, right associativity).

(** Truthiness of a string that may be [undefined]. *)
Definition truthy_str (o : option string) : bool :=
  match o with
  | Some EmptyString | None => false
  | Some _ => true
  end.

(** [a || b] on such values. *)
Definition or_else (a b : option string) : option string :=
  if truthy_str a then a else b.

(* ------------------------------------------------------------------ *)
(** ** The pattern [/ *[–−-] */] of [parsePeakData] *)

Module SplitReg.

Definition dashes : list string := ["–"; "−"; "-"].

(** The dash the string starts with, if any. *)
Definition dash (s : string) : option string :=
  find (fun d => String.prefix d s) dashes.

Fixpoint spaces (s : string) : nat :=
  match s with
  | String " " s' => S (spaces s')
  | _ => O
  end.

(** A match that starts at the head of [s]: the matched text. *)
Definition here (s : string) : option string :=
  let k := spaces s in
  let s1 := Str.drop k s in
  match dash s1 with
  | None => None
  | Some d =>
      let k2 := spaces (Str.drop (String.length d) s1) in
      Some (String.substring 0 (k + String.length d + k2) s)
  end.

(** [s.match(splitReg)]: the leftmost match. *)
Fixpoint exec (s : string) : option string :=
  match here s with
  | Some m => Some m
  | None =>
      match s with
      | EmptyString => None
      | String _ s' => exec s'
      end
  end.

(** [s.split(splitReg)]: [skip] counts the bytes of the current match
    still to be passed over, [cur] is the piece being read. *)
Fixpoint split_aux (s : string) (skip : nat) (cur : string) : list string :=
  match s with
  | EmptyString => [cur]
  | String a s' =>
      match skip with
      | S k => split_aux s' k cur
      | O =>
          match here s with
          | Some m => cur :: split_aux s' (String.length m - 1) EmptyString
          | None => split_aux s' 0 (cur ++ String a EmptyString)
          end
      end
  end.

Definition split (s : string) : list string := split_aux s 0 EmptyString.

End SplitReg.

(* ------------------------------------------------------------------ *)
(** ** h1Component.ts *)

Module H1Component.

Definition peakRangePlaceholder : string := "PEAKRANGE".

(** [peak] of an entry: a string (or [undefined], when the capture
    group took no part in the match) or an array of strings. *)
Inductive Peak : Type :=
| PStr (s : option string)
| PArr (l : list string).

(** [typeof peak === 'string'] *)
Definition is_string (p : Peak) : bool :=
  match p with PStr (Some _) => true | _ => false end.

(** [H1Data]: [Js] is [None] for [null]; the three flags and the
    message are optional fields. *)
Record H1Data : Type := mkH1Data {
  peak : Peak;
  peakType : option string;
  Js : option (list JS.number);
  hydrogenCount : JS.number;
  danger : option bool;
  warning : option bool;
  peakTypeError : option bool;
  errMsg : option string
}.

Definition set_peak (v : Peak) (d : H1Data) : H1Data :=
  mkH1Data v (peakType d) (Js d) (hydrogenCount d) (danger d) (warning d)
           (peakTypeError d) (errMsg d).
Definition set_peakType (v : option string) (d : H1Data) : H1Data :=
  mkH1Data (peak d) v (Js d) (hydrogenCount d) (danger d) (warning d)
           (peakTypeError d) (errMsg d).
Definition set_Js (v : option (list JS.number)) (d : H1Data) : H1Data :=
  mkH1Data (peak d) (peakType d) v (hydrogenCount d) (danger d) (warning d)
           (peakTypeError d) (errMsg d).
Definition set_danger (v : bool) (d : H1Data) : H1Data :=
  mkH1Data (peak d) (peakType d) (Js d) (hydrogenCount d) (Some v) (warning d)
           (peakTypeError d) (errMsg d).
Definition set_warning (v : bool) (d : H1Data) : H1Data :=
  mkH1Data (peak d) (peakType d) (Js d) (hydrogenCount d) (danger d) (Some v)
           (peakTypeError d) (errMsg d).
Definition set_peakTypeError (v : bool) (d : H1Data) : H1Data :=
  mkH1Data (peak d) (peakType d) (Js d) (hydrogenCount d) (danger d) (warning d)
           (Some v) (errMsg d).
Definition set_errMsg (v : string) (d : H1Data) : H1Data :=
  mkH1Data (peak d) (peakType d) (Js d) (hydrogenCount d) (danger d) (warning d)
           (peakTypeError d) (Some v).

(** What [parsePeakData] returns and [fixPeakData] takes: an entry, or
    the token already rendered as a Danger string. *)
Inductive PeakDatum : Type :=
| Flagged (html : string)
| Entry (d : H1Data).

(** Truthiness of an optional flag. *)
Definition flag (o : option bool) : bool :=
  match o with Some true => true | _ => false end.

(** [this.tooltipErrors[0]] and [this.tooltipErrors[1..10]] *)
Definition tooltipErrors0 : list (string * string) :=
  [ (" only", "只"); (" peak should", "峰应"); (" have ", "有");
    (" coupling constant", "个耦合常数") ].

Definition tooltipErrors : list (string * string) :=
  [ ("", "");
    ("Invalid format.", "格式有误");
    ("Chemical shift of multiplet should be written from low field to high field.",
     "多重峰化学位移区间应由低场向高场书写");
    (" peak type does not exists.", "峰类型不存在");
    ("Multiplet peaks should be reported in interval", "多重峰化学位移应为区间形式");
    ("Do not report coupling constants in multiplet peaks", "多重峰不存在耦合常数");
    (" peak should have only one chemical shift", "峰化学位移应为单值");
    (" peak do not have coupling constants", "峰不存在耦合常数");
    (" peak should have coupling constants", "峰应有耦合常数");
    ("Original data: ", "原始数据：");
    (" peak has been marked as multiplets, please report the spectrum data manually",
     "峰已被标注为多重峰，请从MestReNova中手动输入化学位移数据") ].

Definition tooltip0 (i : nat) (lang : Languages) : string :=
  pick lang (nth i tooltipErrors0 ("", "")).
Definition tooltip (i : nat) (lang : Languages) : string :=
  pick lang (nth i tooltipErrors ("", "")).

Definition MAGNIFICATION : JS.number := JS.of_Z 1000.

(** [roundJ]: [Math.round(MAGNIFICATION * J / freq) * freq / MAGNIFICATION] *)
Definition roundJ (J freq : JS.number) : JS.number :=
  JS.div (JS.mul (JS.Math_round (JS.div (JS.mul MAGNIFICATION J) freq)) freq)
         MAGNIFICATION.

(** [isJValid]: false for a null, zero or NaN constant, else
    [MAGNIFICATION * J % freq === 0]. *)
Definition isJValid (J : option JS.number) (freq : JS.number) : bool :=
  match J with
  | None => false
  | Some j =>
      if negb (JS.truthy j) then false
      else JS.eqb (JS.rem (JS.mul MAGNIFICATION j) freq) (JS.of_Z 0)
  end.

Definition validHyphen : list string := ["–"; " – "; "−"; " − "; " - "; "-"].
Definition validEnding : list string := ["H"; "."; ";"].

(** [chain(Js).map(J => J.toFixed(1)).join(', ')] *)
Definition joinJs (l : list JS.number) : string :=
  String.concat ", " (map (fun J => JS.toFixed J 1) l).


(** The rounding rule as the description writes it,
    [round(1000 * J / freq) * freq / 1000], where [round] takes the
    nearest integer and a half goes up. *)
Definition snapToGrid (J freq : Q) : Q :=
  (inject_Z (Qfloor (1000 * J / freq + (1 # 2))) * freq / 1000)%Q.


Section Component.

(** The state of the page: the strict, general-multiplet and auto-fix
    switches and the language. *)
Variable isStrict : bool.
Variable generalChecked : bool.
Variable autoFixJChecked : bool.
Variable currentLanguage : Languages.

(** [data.match(nmrRegex.h1PeakWithJs[Number(strict)])] and the same
    for [h1PeakWithoutJs]. *)
Variable h1PeakWithJs : bool -> string -> option RegExpMatchArray.
Variable h1PeakWithoutJs : bool -> string -> option RegExpMatchArray.

(** The tables of utils/nmr, on a multiplicity that may be
    [undefined]. *)
Variable JCount : option string -> option nat.
Variable isPeak : option string -> bool.
Variable isSinglePeak : option string -> bool.
Variable isMultiplePeak : option string -> bool.
Variable isMultiplePeakWithJ : option string -> bool -> bool.

(** The HTML helpers of utils/utils. *)
Variable highlightData : string -> HighlightType -> option string -> string.
Variable escapeSpace : string -> string.

(** The branch of [parsePeakData] for a token that matched no
    pattern, or a pattern without a valid ending. *)
Definition invalidToken (data : string) : string :=
  let data := if Str.includes data ")" then data else data ++ ")" in
  highlightData (escapeSpace data) Danger (Some (tooltip 1 currentLanguage)).

(** [slice(3, 6)] of a match array *)
Definition slice_3_6 (m : RegExpMatchArray) : RegExpMatchArray :=
  firstn 3 (skipn 3 m).

(** The body of [parsePeakData] once both patterns have been tried. *)
Definition parsePeakData_matched
    (couplingMatch nonCouplingMatch : option RegExpMatchArray)
    (data : string) : completion PeakDatum :=
  match couplingMatch, nonCouplingMatch with
  | Some cm, _ =>
      let Js := JS.compact (map JS.Number_opt (slice_3_6 cm)) in
      let peakType := group cm 2 in
      let JNumber := JCount peakType in
      let mismatch :=
        match JNumber with
        | Some n => negb (Nat.eqb (List.length Js) n)
        | None => true
        end in
      let zhi :=
        match JNumber with
        | Some 1 => tooltip0 0 currentLanguage
        | _ => ""
        end in
      let end_ :=
        match currentLanguage, JNumber with
        | Chinese, Some n => if Nat.ltb 1 n then "s" else ""
        | _, _ => ""
        end in
      let msg :=
        Str.of_undefined peakType ++ tooltip0 1 currentLanguage ++ zhi
        ++ tooltip0 2 currentLanguage
        ++ Str.of_undefined (option_map Str.of_nat (JCount peakType))
        ++ tooltip0 3 currentLanguage ++ end_ in
      Normal (Entry
        {| Js := Some Js;
           peakTypeError := Some mismatch;
           errMsg := Some (if mismatch then msg else "");
           peak := PStr (group cm 1);
           peakType := peakType;
           hydrogenCount := JS.Number_opt (group cm 6);
           danger := None;
           warning := None |})
  | None, Some ncm =>
      match group ncm 1, group ncm 0 with
      | Some shift, Some whole =>
          let hyphen :=
            match SplitReg.exec shift with Some h => h | None => "" end in
          let peakArr := SplitReg.split shift in
          if negb (Str.mem validEnding (Str.last1 whole)) then
            Normal (Flagged (invalidToken data))
          else if (isStrict && negb (Str.mem validHyphen hyphen)
                   && negb (String.eqb hyphen ""))%bool then
            let peak :=
              highlightData shift Danger (Some (tooltip 1 currentLanguage)) in
            Normal (Entry
              {| peak := PStr (Some peak);
                 peakType := group ncm 3;
                 Js := None;
                 hydrogenCount := JS.Number_opt (group ncm 4);
                 danger := None;
                 warning := None;
                 peakTypeError := None;
                 errMsg := None |})
          else
            let peak :=
              match peakArr with
              | [p] => PStr (Some p)
              | _ => PArr peakArr
              end in
            let danger :=
              JS.ltb (JS.Number_opt (nth_error peakArr 0))
                     (JS.Number_opt (nth_error peakArr 1)) in
            let errMsg := if danger then tooltip 2 currentLanguage else "" in
            Normal (Entry
              {| peak := peak;
                 danger := Some danger;
                 errMsg := Some errMsg;
                 peakType := group ncm 3;
                 Js := None;
                 hydrogenCount := JS.Number_opt (group ncm 4);
                 warning := None;
                 peakTypeError := None |})
      | _, _ => TypeError
      end
  | None, None => Normal (Flagged (invalidToken data))
  end.

(** [parsePeakData] *)
Definition parsePeakData (data : string) : completion PeakDatum :=
  parsePeakData_matched (h1PeakWithJs isStrict data)
                        (h1PeakWithoutJs isStrict data) data.

(** Step 6 of [fixPeakData]: a multiplicity with no rule of its own
    becomes an [m] peak on the placeholder range. *)
Definition markAsMultiplet (original c : H1Data) : H1Data :=
  set_errMsg (Str.of_undefined (peakType original) ++ "            "
              ++ tooltip 10 currentLanguage)
    (set_Js None
      (set_peak (PStr (Some peakRangePlaceholder))
        (set_peakType (Some "m")
          (set_danger true c)))).

(** The rounding step of [fixPeakData], on the copy [c] whose
    constants are [js]. *)
Definition fixJs (original c : H1Data) (js : list JS.number)
    (freq : JS.number) : H1Data :=
  let isAllJValid := forallb (fun J => isJValid (Some J) freq) js in
  if (negb isAllJValid && negb (flag (peakTypeError c)))%bool then
    let originalJsString :=
      joinJs (match Js original with Some l => l | None => [] end) in
    set_errMsg (tooltip 9 currentLanguage ++ "<em>J</em> = "
                ++ "                    " ++ originalJsString ++ " Hz")
      (set_warning true
        (set_Js (Some (map (fun J => roundJ J freq) js)) c))
  else c.

(** [fixPeakData] on an entry; [peakDatumCopy] is a shallow copy, so
    every assignment is a field update of [c]. *)
Definition fixEntry (peakDatum : H1Data) (freq : JS.number) : H1Data :=
  let isGeneral := negb generalChecked in
  let willFixJ := autoFixJChecked in
  let c := peakDatum in
  if negb (isPeak (peakType c)) then
    set_errMsg (Str.of_undefined (peakType c) ++ tooltip 3 currentLanguage)
      (set_peakTypeError true c)
  else if isMultiplePeak (peakType c) then
    let c :=
      if is_string (peak c) then
        set_errMsg (tooltip 4 currentLanguage) (set_danger true c)
      else c in
    match Js c with
    | Some _ => set_errMsg (tooltip 5 currentLanguage) (set_warning true c)
    | None => c
    end
  else
    let c :=
      if negb (is_string (peak c)) then
        set_errMsg (Str.of_undefined (peakType c) ++ tooltip 6 currentLanguage)
          (set_danger true c)
      else c in
    if isSinglePeak (peakType c) then
      match Js c with
      | Some _ =>
          set_errMsg (Str.of_undefined (peakType c) ++ tooltip 7 currentLanguage)
            (set_peakTypeError true c)
      | None => c
      end
    else if isMultiplePeakWithJ (peakType c) isGeneral then
      if willFixJ then
        match Js c with
        | None =>
            set_errMsg (Str.of_undefined (peakType c) ++ tooltip 8 currentLanguage)
              (set_peakTypeError true c)
        | Some js => fixJs peakDatum c js freq
        end
      else c
    else markAsMultiplet peakDatum c.

(** [fixPeakData]: a token already flagged is returned as it is. *)
Definition fixPeakData (peakDatum : PeakDatum) (freq : JS.number)
  : PeakDatum :=
  match peakDatum with
  | Flagged _ => peakDatum
  | Entry d => Entry (fixEntry d freq)
  end.

(** An entry with coupling constants has a string for its shift, as
    every entry of the with-coupling branch of [parsePeakData] whose
    shift group was captured. *)
Definition singleShiftWithJs (peakDatum : PeakDatum) : bool :=
  match peakDatum with
  | Entry d =>
      match Js d with
      | Some _ => is_string (peak d)
      | None => true
      end
  | Flagged _ => true
  end.

(** The entry takes step 6 of [fixPeakData]: a recognised multiplicity
    that is neither the multiplet, nor single, nor one with constants. *)
Definition coerced (peakDatum : PeakDatum) : bool :=
  match peakDatum with
  | Flagged _ => false
  | Entry d =>
      (isPeak (peakType d) && negb (isMultiplePeak (peakType d))
       && negb (isSinglePeak (peakType d))
       && negb (isMultiplePeakWithJ (peakType d) (negb generalChecked)))%bool
  end.

(** Every coupling constant of the entry, once rounded, passes
    [isJValid]. *)
Definition roundedValid (peakDatum : PeakDatum) (freq : JS.number) : bool :=
  match peakDatum with
  | Entry d =>
      match Js d with
      | Some js => forallb (fun J => isJValid (Some (roundJ J freq)) freq) js
      | None => true
      end
  | Flagged _ => true
  end.

End Component.

End H1Component.

(* ------------------------------------------------------------------ *)
(** ** The coupling-constant arithmetic on IEEE binary64 values *)

Module B64.

Definition prec : Z := 53.
Definition emax : Z := 1024.

Definition of_Z (z : Z) : spec_float := binary_normalize prec emax z 0 false.

Definition mul : spec_float -> spec_float -> spec_float := SFmul prec emax.
Definition div : spec_float -> spec_float -> spec_float := SFdiv prec emax.

(** The value of the decimal literal [n / 10^k] for [n] and [10^k] below
    [2^53]: both are exact, so their quotient is the double nearest to
    the literal. *)
Definition of_decimal (n : Z) (k : nat) : spec_float :=
  div (of_Z n) (of_Z (10 ^ Z.of_nat k)).

(** [x % y]: exact, with the sign of the dividend. *)
Definition rem (x y : spec_float) : spec_float :=
  match x, y with
  | S754_nan, _ | _, S754_nan => S754_nan
  | S754_infinity _, _ => S754_nan
  | _, S754_zero _ => S754_nan
  | _, S754_infinity _ => x
  | S754_zero _, _ => x
  | S754_finite sx mx ex, S754_finite _ my ey =>
      let e := Z.min ex ey in
      let X := (Z.pos mx * 2 ^ (ex - e))%Z in
      let Y := (Z.pos my * 2 ^ (ey - e))%Z in
      let r := Z.rem X Y in
      binary_normalize prec emax (if sx then (- r)%Z else r) e sx
  end.

Definition truthy (x : spec_float) : bool :=
  match x with
  | S754_nan | S754_zero _ => false
  | _ => true
  end.

(** [Math.round(x)]: the floor of [x + 1/2], taken on the exact value. *)
Definition Math_round (x : spec_float) : spec_float :=
  match x with
  | S754_finite sx mx ex =>
      if (0 <=? ex)%Z then x
      else
        let m := if sx then Z.neg mx else Z.pos mx in
        binary_normalize prec emax
          ((2 * m + 2 ^ (- ex)) / 2 ^ (1 - ex))%Z 0 sx
  | _ => x
  end.

(** [H1Component.roundJ] on doubles. *)
Definition roundJ (J freq : spec_float) : spec_float :=
  div (mul (Math_round (div (mul (of_Z 1000) J) freq)) freq) (of_Z 1000).

(** [H1Component.isJValid] on doubles. *)
Definition isJValid (J freq : spec_float) : bool :=
  if negb (truthy J) then false
  else SFeqb (rem (mul (of_Z 1000) J) freq) (of_Z 0).

End B64.

(* ------------------------------------------------------------------ *)
(** ** Sample tables *)

Module Tables.

(** Modelled from the spec: the expected-count table [JCount] of
    utils/nmr, with the entries the description lists (doublet 1,
    triplet 1, quartet 1, dd 2, ddd 3). *)
Definition JCount (t : option string) : option nat :=
  match t with
  | Some "d" | Some "t" | Some "q" => Some 1
  | Some "dd" => Some 2
  | Some "ddd" => Some 3
  | _ => None
  end.

(** Modelled from the spec: the multiplet alphabet of utils/nmr
    (s, d, t, q, m, dd and the ddd of the count table). *)
Definition isPeak (t : option string) : bool :=
  match t with
  | Some s => Str.mem ["s"; "d"; "t"; "q"; "m"; "dd"; "ddd"] s
  | None => false
  end.

(** Modelled from the spec: the singlet is the multiplicity that cannot
    carry coupling constants. *)
Definition isSinglePeak (t : option string) : bool :=
  match t with Some s => String.eqb s "s" | None => false end.

(** Modelled from the spec: the multiplet [m] is the multiplicity that
    needs a shift range. *)
Definition isMultiplePeak (t : option string) : bool :=
  match t with Some s => String.eqb s "m" | None => false end.

(** Modelled from the spec: the multiplicities that require coupling
    constants.  The description does not say which ones the general
    switch toggles; here it toggles dd and ddd, and d, t and q require
    constants either way. *)
Definition isMultiplePeakWithJ (t : option string) (isGeneral : bool) : bool :=
  match t with
  | Some s =>
      (Str.mem ["d"; "t"; "q"] s
       || (isGeneral && Str.mem ["dd"; "ddd"] s))%bool
  | None => false
  end.

(** Stand-ins for [highlightData] and [escapeSpace] of utils/utils: the
    span is tagged with its classification and message; spaces are kept. *)
Definition highlightData (data : string) (type : HighlightType)
    (errMsg : option string) : string :=
  let tag :=
    match type with
    | Success => "success" | Warning => "warning" | Danger => "danger"
    end in
  "<" ++ tag
  ++ match errMsg with Some m => " msg='" ++ m ++ "'" | None => "" end
  ++ ">" ++ data ++ "</" ++ tag ++ ">".

Definition escapeSpace (s : string) : string := s.

End Tables.

(* ------------------------------------------------------------------ *)
(** ** hrmsComponent.ts *)

Module HrmsComponent.

Record HrmsData : Type := mkHrmsData {
  data : string;
  source : string;
  ion : string;
  formula : string;
  exactMass : string;
  foundMass : string;
  calcdMass : JS.number
}.

Definition set_exactMass (v : string) (h : HrmsData) : HrmsData :=
  mkHrmsData (data h) (source h) (ion h) (formula h) v (foundMass h)
             (calcdMass h).

Record YieldWeightHrms : Type := mkYieldWeightHrms {
  hrms : string;
  yield_ : JS.number;
  weight : JS.number;
  errMsg : string
}.

(** [string | HrmsData]: what [parseHrmsData] returns. *)
Inductive Parsed : Type :=
| DangerStr (html : string)
| Record_ (h : HrmsData).

Record ParsedData : Type := mkParsedData {
  p_yield : JS.number;
  p_weight : JS.number;
  p_hrms : Parsed
}.

Record ComponentData : Type := mkComponentData {
  input : list string;
  outputPlain : list string;
  outputRich : list string
}.

(** [this.errMsg] *)
Definition dataErr : string * string := ("HRMS Data not valid.", "数据有误").
Definition formatErr : string * string := ("Format not valid.", "格式有误").
Definition decimalErr : string * string :=
  ("Mass value should be rounded to two decimal places", "应保留4位小数").
Definition calcErr : string * string :=
  ("Data error, calculated value: ", "数据错误，计算值：").
Definition foundErr : string * string :=
  ("Deviation should be less than 0.003", "偏差值应小于0.003").

Definition sourceList : list string :=
  ["ESI"; "APCI"; "EI"; "MALDI"; "CI"; "FD"; "FI"; "FAB"; "APPI"; "TS"; "PB"; "DART"].
Definition ionList : list string := [""; "H"; "Na"; "K"; "Cs"].

Definition requiredDecimal : nat := 4.
Definition maxFoundError : JS.number := JS.Num (3 # 1000).
Definition errorEdge : JS.number := JS.Num (1 # 10000).

(** [getIonMass] *)
Definition getIonMass (ion : string) : JS.number :=
  if String.eqb ion "" then JS.of_Z 0
  else
    let massOfElectron := JS.Num (549 # 1000000) in
    JS.neg massOfElectron.

(** lodash [compact] on an array of records and nulls. *)
Fixpoint compact {A : Type} (l : list (option A)) : list A :=
  match l with
  | [] => []
  | Some a :: l' => a :: compact l'
  | None :: l' => compact l'
  end.

Section Component.

Variable isStrict : bool.
Variable currentLanguage : Languages.

(** [s.match(re)] for the six patterns of [hrmsRegex]. *)
Variable yieldReg weightReg hrmsReg : string -> option RegExpMatchArray.
Variable sourceReg ionReg dataReg : string -> option RegExpMatchArray.

(** The formula engine of utils/formula, on the formula text:
    [new Formula(f).isValid()], [.getExactMass()], [.toString()] and
    [.toFormattedString()]. *)
Variable isValid : string -> bool.
Variable getExactMass : string -> JS.number.
Variable formulaToString : string -> string.
Variable formulaToFormattedString : string -> string.

Variable highlightData : string -> HighlightType -> option string -> string.

(** [getDangerStr] *)
Definition getDangerStr (data errMsg : string) (strToReplace : option string)
  : string :=
  match strToReplace with
  | None => highlightData data Danger (Some errMsg)
  | Some s =>
      let replacement := highlightData s Danger (Some errMsg) in
      Str.replace data s replacement
  end.

(** [dangerOnCondition] *)
Definition dangerOnCondition (willHighlightData : bool)
    (data errMsg : string) (replace : option string) : string :=
  if willHighlightData then getDangerStr data errMsg replace else data.

(** The callback of [getHrmsDataArray] on one line.  On a line without
    an HRMS clause the source stores the format-error string in its
    local [errMsg] and returns [null]: the string is lost, and only the
    [null] is modelled. *)
Definition getHrmsDataLine (data : string) : option YieldWeightHrms :=
  let yieldMatch :=
    match yieldReg data with Some m => m | None => [Some ""] end in
  let weightMatch :=
    match weightReg data with Some m => m | None => [Some ""] end in
  match hrmsReg data with
  | None => None
  | Some hrmsMatch =>
      let hrms := match group hrmsMatch 0 with Some s => s | None => "" end in
      let errMsg := "" in
      let errMsg :=
        match isStrict, group yieldMatch 2 with
        | true, Some y =>
            if negb (String.eqb y "") then
              getDangerStr data (pick currentLanguage formatErr) (Some y)
            else errMsg
        | _, _ => errMsg
        end in
      let errMsg :=
        match isStrict, group weightMatch 2 with
        | true, Some w =>
            if negb (String.eqb w " ") then
              getDangerStr data (pick currentLanguage formatErr) (Some w)
            else errMsg
        | _, _ => errMsg
        end in
      Some {| hrms := hrms;
              errMsg := errMsg;
              yield_ := JS.Number_opt (group yieldMatch 1);
              weight := JS.Number_opt (group weightMatch 1) |}
  end.

(** [getHrmsDataArray]: [None] is the [null] returned on an empty
    input. *)
Definition getHrmsDataArray (inputtedData : string)
  : option (list (option YieldWeightHrms)) :=
  let compoundDataArray := Str.split "010"%char inputtedData in
  match compoundDataArray with
  | [ EmptyString ] => None
  | _ => Some (map getHrmsDataLine compoundDataArray)
  end.

(** A value of [tempArr] that passes the test [!tempArr[i]]. *)
Definition nonEmpty (v : option string) : option string :=
  match v with
  | Some (String a s) => Some (String a s)
  | _ => None
  end.

(** The counter-ion block of [parseHrmsData]: the ion, or the Danger
    string the block returns. *)
Definition checkIon (hrmsData : string) (ionMatch : RegExpMatchArray)
  : string + string :=
  let err := pick currentLanguage dataErr in
  let ionPlusSign := or_else (group ionMatch 1) (group ionMatch 3) in
  let ion := or_else (group ionMatch 2) (group ionMatch 4) in
  match ion with
  | Some EmptyString =>
      match ionPlusSign with
      | Some EmptyString => inr ""
      | _ => inl (getDangerStr hrmsData err (group ionMatch 0))
      end
  | Some i =>
      if Str.mem ionList i then
        if (isStrict
            && negb (match ionPlusSign with
                     | Some s => String.eqb s " + "
                     | None => false
                     end))%bool
        then inl (getDangerStr hrmsData (pick currentLanguage formatErr)
                               (group ionMatch 0))
        else inr i
      else inl (getDangerStr hrmsData err (group ionMatch 0))
  | None => inl (getDangerStr hrmsData err (group ionMatch 0))
  end.

(** [parseHrmsData] *)
Definition parseHrmsData (hrmsData : string) : Parsed :=
  let err := pick currentLanguage dataErr in
  match sourceReg hrmsData with
  | None => DangerStr (getDangerStr hrmsData err None)
  | Some sourceMatch =>
  match group sourceMatch 1 with
  | None => DangerStr (getDangerStr hrmsData err None)
  | Some source =>
  let isContained :=
    existsb (fun availableSource => Str.includes source availableSource)
            sourceList in
  if negb isContained then
    DangerStr (getDangerStr hrmsData err (Some source))
  else
  match ionReg hrmsData with
  | None => DangerStr (getDangerStr hrmsData err None)
  | Some ionMatch =>
  match checkIon hrmsData ionMatch with
  | inl html => DangerStr html
  | inr ion =>
  match dataReg hrmsData with
  | None => DangerStr (getDangerStr hrmsData err None)
  | Some dataMatch =>
  let bad (v : option string) :=
    DangerStr (getDangerStr hrmsData err (Some (Str.of_undefined v))) in
  match nonEmpty (group dataMatch 1) with
  | None => bad (group dataMatch 1)
  | Some formula =>
  match nonEmpty (group dataMatch 3) with
  | None => bad (group dataMatch 3)
  | Some exactMass =>
  match nonEmpty (group dataMatch 4) with
  | None => bad (group dataMatch 4)
  | Some foundMass =>
      if negb (isValid formula) then
        DangerStr (getDangerStr hrmsData err (Some formula))
      else
        let calcdMass :=
          JS.round
            (JS.round (JS.add (getExactMass formula) (getIonMass ion)) 5) 4 in
        Record_ {| data := hrmsData;
                   source := source;
                   ion := ion;
                   formula := formula;
                   calcdMass := calcdMass;
                   exactMass := exactMass;
                   foundMass := foundMass |}
  end end end end end end end end.

(** The second element of [mass.split('.')]. *)
Definition fraction (mass : string) : option string :=
  nth_error (Str.split "."%char mass) 1.

(** The end of the callback of [renderStrArrays]: the comparison with
    the calculated mass, then the formatted line. *)
Definition renderChecked (willHighlightData : bool) (h : HrmsData) : string :=
  if JS.gtb (JS.round (JS.abs (JS.sub (JS.Number (exactMass h)) (calcdMass h))) 4)
            errorEdge
  then
    dangerOnCondition willHighlightData (data h)
      (pick currentLanguage calcErr ++ JS.toFixed (calcdMass h) 4)
      (Some (exactMass h))
  else
    let mergedData :=
      Str.replace (data h) (formula h) (formulaToString (formula h)) in
    let formattedData :=
      Str.replace (data h) (formula h) (formulaToFormattedString (formula h)) in
    if willHighlightData then
      "<b>" ++ highlightData formattedData Success None ++ "</b>"
    else mergedData.

(** The callback of [renderStrArrays]: the rendered line and the
    record as the callback leaves it ([hrms.exactMass] is assigned in
    lenient mode). *)
Definition renderStr (willHighlightData : bool) (obj : ParsedData)
  : completion (string * ParsedData) :=
  match p_hrms obj with
  | DangerStr hrms =>
      Normal (if willHighlightData then "<strong>" ++ hrms ++ "</strong>"
              else hrms, obj)
  | Record_ h =>
      let fractionE := fraction (exactMass h) in
      let fractionF := fraction (foundMass h) in
      let decimal := pick currentLanguage decimalErr in
      if isStrict then
        fe <- match fractionE with Some f => Normal f | None => TypeError end ;;
        if negb (Nat.eqb (String.length fe) requiredDecimal) then
          Normal (dangerOnCondition willHighlightData (data h) decimal
                                    (Some (exactMass h)), obj)
        else
          ff <- match fractionF with Some f => Normal f | None => TypeError end ;;
          if negb (Nat.eqb (String.length ff) requiredDecimal) then
            Normal (dangerOnCondition willHighlightData (data h) decimal
                                      (Some (foundMass h)), obj)
          else if JS.gtb (JS.abs (JS.sub (JS.Number (foundMass h))
                                         (JS.Number (exactMass h))))
                         maxFoundError then
            Normal (dangerOnCondition willHighlightData (data h)
                      (pick currentLanguage foundErr) (Some (foundMass h)), obj)
          else Normal (renderChecked willHighlightData h, obj)
      else
        let h' := set_exactMass (JS.toFixed (JS.Number (exactMass h)) 4) h in
        Normal (renderChecked willHighlightData h',
                mkParsedData (p_yield obj) (p_weight obj) (Record_ h'))
  end.

(** [renderStrArrays]: the callback on every record in turn. *)
Fixpoint renderStrArrays (willHighlightData : bool)
    (hrmsRenderObjs : list ParsedData)
  : completion (list string * list ParsedData) :=
  match hrmsRenderObjs with
  | [] => Normal ([], [])
  | obj :: rest =>
      r <- renderStr willHighlightData obj ;;
      rs <- renderStrArrays willHighlightData rest ;;
      Normal (fst r :: fst rs, snd r :: snd rs)
  end.

(** [render]: the plain pass, then the highlighted pass on the same
    records. *)
Definition render (hrmsDataArr : list YieldWeightHrms)
    (hrmsRenderObjs : list ParsedData) : completion (option ComponentData) :=
  let input := map hrms hrmsDataArr in
  match input with
  | [] => Normal None
  | _ =>
      plain <- renderStrArrays false hrmsRenderObjs ;;
      rich <- renderStrArrays true (snd plain) ;;
      Normal (Some {| input := input;
                      outputPlain := fst plain;
                      outputRich := fst rich |})
  end.

(** [handle], on the text of the input box. *)
Definition handle (inputtedData : string) : completion (option ComponentData) :=
  match getHrmsDataArray inputtedData with
  | None => Normal None
  | Some hrmsDataArr =>
      let validHrmsData := compact hrmsDataArr in
      let hrmsRenderObj :=
        map (fun d => {| p_yield := yield_ d;
                         p_weight := weight d;
                         p_hrms := parseHrmsData (hrms d) |})
            validHrmsData in
      render validHrmsData hrmsRenderObj
  end.

(** The mass has exactly [requiredDecimal] digits after the point. *)
Definition decimalsOk (mass : string) : bool :=
  match fraction mass with
  | Some f => Nat.eqb (String.length f) requiredDecimal
  | None => false
  end.


(** [round(|exact - calcdMass|, 4) > errorEdge] *)
Definition inconsistent (h : HrmsData) : bool :=
  JS.gtb (JS.round (JS.abs (JS.sub (JS.Number (exactMass h)) (calcdMass h))) 4)
         errorEdge.

(** The record whose exact mass is what the consistency check reads:
    as reported in strict mode, coerced to four decimals otherwise. *)
Definition checkedRecord (h : HrmsData) : HrmsData :=
  if isStrict then h
  else set_exactMass (JS.toFixed (JS.Number (exactMass h)) 4) h.

End Component.

End HrmsComponent.

(* ------------------------------------------------------------------ *)
(** ** Sample lines *)

Module Sample.

(** The patterns of utils/regex are not part of the components.  The
    examples fix what they return on these lines: the clause of a
    protonated C10H13N2O ion, the same clause with three decimals in
    the exact mass, with a found mass off by 0.0978, and with an exact
    mass off by 0.0022, and a line that is no HRMS clause at all. *)
Definition good : string :=
  "HRMS (ESI): m/z [M + H]+ calcd for C10H13N2O 177.1022; found 177.1025.".
Definition threeDecimals : string :=
  "HRMS (ESI): m/z [M + H]+ calcd for C10H13N2O 177.102; found 177.1025.".
Definition farOff : string :=
  "HRMS (ESI): m/z [M + H]+ calcd for C10H13N2O 177.1022; found 177.2000.".
Definition wrongMass : string :=
  "HRMS (ESI): m/z [M + H]+ calcd for C10H13N2O 177.1000; found 177.1010.".
Definition noClause : string := "white solid, mp 101-103 C.".

Definition lookup (table : list (string * RegExpMatchArray)) (s : string)
  : option RegExpMatchArray :=
  option_map snd (find (fun e => String.eqb (fst e) s) table).

Definition clauses : list string := [good; threeDecimals; farOff; wrongMass].

Definition hrmsReg : string -> option RegExpMatchArray :=
  lookup (map (fun c => (c, [Some c])) clauses).
Definition yieldReg (_ : string) : option RegExpMatchArray := None.
Definition weightReg (_ : string) : option RegExpMatchArray := None.
Definition sourceReg : string -> option RegExpMatchArray :=
  lookup (map (fun c => (c, [Some "(ESI)"; Some "ESI"])) clauses).
Definition ionReg : string -> option RegExpMatchArray :=
  lookup (map (fun c => (c, [Some "[M + H]+"; Some " + "; Some "H"])) clauses).
Definition dataReg : string -> option RegExpMatchArray :=
  lookup
    [ (good, [Some "C10H13N2O 177.1022; found 177.1025"; Some "C10H13N2O";
              None; Some "177.1022"; Some "177.1025"]);
      (threeDecimals, [Some "C10H13N2O 177.102; found 177.1025"; Some "C10H13N2O";
                       None; Some "177.102"; Some "177.1025"]);
      (farOff, [Some "C10H13N2O 177.1022; found 177.2000"; Some "C10H13N2O";
                None; Some "177.1022"; Some "177.2000"]);
      (wrongMass, [Some "C10H13N2O 177.1000; found 177.1010"; Some "C10H13N2O";
                   None; Some "177.1000"; Some "177.1010"]) ].

(** Stand-ins for the formula engine of utils/formula on the one formula
    of the examples: 10 C (12.000000), 13 H (1.007825), 2 N (14.003074)
    and 1 O (15.994915) weigh 177.102788. *)
Definition isValid (f : string) : bool := String.eqb f "C10H13N2O".
Definition getExactMass (f : string) : JS.number :=
  if String.eqb f "C10H13N2O" then JS.Num (177102788 # 1000000) else JS.NaN.
Definition formulaToString (f : string) : string := f.
Definition formulaToFormattedString (f : string) : string :=
  if String.eqb f "C10H13N2O"
  then "C<sub>10</sub>H<sub>13</sub>N<sub>2</sub>O" else f.

Definition parseHrmsData (isStrict : bool) : string -> HrmsComponent.Parsed :=
  HrmsComponent.parseHrmsData isStrict English sourceReg ionReg dataReg
    isValid getExactMass Tables.highlightData.

Definition renderStr (isStrict willHighlightData : bool)
  : HrmsComponent.ParsedData
    -> completion (string * HrmsComponent.ParsedData) :=
  HrmsComponent.renderStr isStrict English formulaToString
    formulaToFormattedString Tables.highlightData willHighlightData.

Definition handle (isStrict : bool)
  : string -> completion (option HrmsComponent.ComponentData) :=
  HrmsComponent.handle isStrict English yieldReg weightReg hrmsReg
    sourceReg ionReg dataReg isValid getExactMass formulaToString
    formulaToFormattedString Tables.highlightData.

(** The records the sample clauses parse to. *)
Definition record (exact found : string) (line : string)
  : HrmsComponent.HrmsData :=
  {| HrmsComponent.data := line;
     HrmsComponent.source := "ESI";
     HrmsComponent.ion := "H";
     HrmsComponent.formula := "C10H13N2O";
     HrmsComponent.exactMass := exact;
     HrmsComponent.foundMass := found;
     HrmsComponent.calcdMass := JS.Num (1771022 # 10000) |}.

Definition goodRecord := record "177.1022" "177.1025" good.
Definition farOffRecord := record "177.1022" "177.2000" farOff.

Definition parsed (h : HrmsComponent.HrmsData) : HrmsComponent.ParsedData :=
  {| HrmsComponent.p_yield := JS.NaN;
     HrmsComponent.p_weight := JS.NaN;
     HrmsComponent.p_hrms := HrmsComponent.Record_ h |}.


(** Peak tokens and what the two peak patterns capture on them: the
    shift, the multiplicity, up to three constants and the hydrogen
    count with constants; the shift, an unused group, the multiplicity
    and the hydrogen count without. *)
Definition triplet : string := "7.15 (t, J = 11.2, 5.0 Hz, 1H".
Definition tripletMatch : RegExpMatchArray :=
  [Some triplet; Some "7.15"; Some "t"; Some "11.2"; Some "5.0"; None; Some "1"].

Definition descending : string := "7.10–6.68 (m, 1H".
Definition descendingMatch : RegExpMatchArray :=
  [Some descending; Some "7.10–6.68"; None; Some "m"; Some "1"].

Definition ascending : string := "6.68–7.10 (m, 1H".
Definition ascendingMatch : RegExpMatchArray :=
  [Some ascending; Some "6.68–7.10"; None; Some "m"; Some "1"].

Definition level : string := "7.10–7.10 (m, 1H".
Definition levelMatch : RegExpMatchArray :=
  [Some level; Some "7.10–7.10"; None; Some "m"; Some "1"].

Definition h1PeakWithJs (_ : bool) : string -> option RegExpMatchArray :=
  lookup [(triplet, tripletMatch)].
Definition h1PeakWithoutJs (_ : bool) : string -> option RegExpMatchArray :=
  lookup [(descending, descendingMatch); (ascending, ascendingMatch);
          (level, levelMatch)].

Definition parsePeakData (isStrict : bool)
  : string -> completion H1Component.PeakDatum :=
  H1Component.parsePeakData isStrict English h1PeakWithJs h1PeakWithoutJs
    Tables.JCount Tables.highlightData Tables.escapeSpace.

(** [fixPeakData] with the general switch off and the auto-fix switch on. *)
Definition fixPeakData
  : H1Component.PeakDatum -> JS.number -> H1Component.PeakDatum :=
  H1Component.fixPeakData false true English Tables.isPeak Tables.isSinglePeak
    Tables.isMultiplePeak Tables.isMultiplePeakWithJ.


Definition MHz400 : JS.number := JS.Number "400".

End Sample.

(* ------------------------------------------------------------------ *)
(** ** h1Component.ts: rendering and [handle] *)

Module H1Render.

Import H1Component.

(** A value that reaches [highlightData] or a template literal where a
    string is expected: [undefined], or an array of strings. *)
Inductive NonString : Type :=
| Undefined
| StringArray (l : list string).

Inductive Rendered : Type :=
| Text (s : string)
| Other (v : NonString).

(** What a template literal prints for the value. *)
Definition printRendered (r : Rendered) : string :=
  match r with
  | Text s => s
  | Other Undefined => "undefined"
  | Other (StringArray l) => String.concat "," l
  end.

(** Modelled from the spec: the metadata of a record ([Metadata] of
    utils/nmr), with the fields the component reads. *)
Record Metadata : Type := mkMetadata {
  type : string;
  freq : JS.number;
  solvent : string
}.

(** What [handleNMRData] returns; a [null] metadata is [None]. *)
Record NMRData : Type := mkNMRData {
  peakData : list (list string);
  metadataArr : list (option Metadata);
  tailArr : list string;
  errorArr : list (option string)
}.

(** [H1RenderObj]: [peaks], [tail] and [metaErr] are read at an index
    that may be past the end of their arrays. *)
Record H1RenderObj : Type := mkH1RenderObj {
  meta : option Metadata;
  peaks : option (list PeakDatum);
  tail : option string;
  metaErr : option (option string)
}.

Section Component.

Variable isStrict : bool.
Variable generalChecked : bool.
Variable autoFixJChecked : bool.
Variable currentLanguage : Languages.
Variable h1PeakWithJs : bool -> string -> option RegExpMatchArray.
Variable h1PeakWithoutJs : bool -> string -> option RegExpMatchArray.
Variable JCount : option string -> option nat.
Variable isPeak : option string -> bool.
Variable isSinglePeak : option string -> bool.
Variable isMultiplePeak : option string -> bool.
Variable isMultiplePeakWithJ : option string -> bool -> bool.
Variable highlightData : string -> HighlightType -> option string -> string.
Variable escapeSpace : string -> string.

(** [Number::toString], which [${n}] applies to a number: the shortest
    decimal that reads back as the same double has no counterpart on
    rationals. *)
Variable numberToString : JS.number -> string.

(** [solventsInfo[solvent].formattedString] of utils/constants; [None]
    where the table has no such solvent. *)
Variable solventsInfo : string -> option string.

(** [highlightData] on a value that is no string. *)
Variable highlightOther :
  NonString -> HighlightType -> option string -> completion string.

(** [handleNMRData(this, 'H', strict)] of utils/nmr on the text of the
    input box, and [this.matchedData] as [render] finds it. *)
Variable handleNMRData : string -> bool -> option NMRData.
Variable matchedData : list string.

(** [renderOnCondition]; without the condition the value is returned as
    it is and the template literal around the call prints it. *)
Definition renderOnCondition (cond : bool) (strToRender : Rendered)
    (type : HighlightType) (errMsg : option string) : completion string :=
  if cond then
    match strToRender with
    | Text s => Normal (highlightData s type errMsg)
    | Other v => highlightOther v type errMsg
    end
  else Normal (printRendered strToRender).

(** [formattedPeak] of [stringifyPeakData]. *)
Definition formatPeak (p : Peak) : completion Rendered :=
  match p with
  | PStr None => TypeError
  | PStr (Some s) =>
      if (negb (String.eqb s peakRangePlaceholder)
          && negb (String.eqb (String.substring 0 1 s) "<"))%bool
      then Normal (Text (JS.toFixed (JS.Number s) 2))
      else Normal (Text s)
  | PArr l =>
      if negb (match nth_error l 0 with
               | Some s => String.eqb s "<"
               | None => false
               end)
      then Normal (Text (JS.toFixed (JS.Number_opt (nth_error l 0)) 2 ++ "–"
                         ++ JS.toFixed (JS.Number_opt (nth_error l 1)) 2))
      else Normal (Other (StringArray l))
  end.

(** [stringifyPeakData] *)
Definition stringifyPeakData (willHighlightData : bool) (peakObj : PeakDatum)
  : completion string :=
  match peakObj with
  | Flagged html => Normal html
  | Entry d =>
      formattedPeak <- formatPeak (peak d) ;;
      rendeDangerPeak <-
        renderOnCondition (flag (danger d)) formattedPeak Danger (errMsg d) ;;
      rendeDangerPeakType <-
        renderOnCondition (flag (peakTypeError d))
          (match peakType d with Some t => Text t | None => Other Undefined end)
          Danger (errMsg d) ;;
      match Js d with
      | None =>
          Normal (rendeDangerPeak ++ " " ++ "      " ++ "(" ++ rendeDangerPeakType
                  ++ ", " ++ numberToString (hydrogenCount d) ++ "H)")
      | Some js =>
          let formattedJ := joinJs js in
          renderDangerJ <-
            renderOnCondition (willHighlightData && flag (warning d))
              (Text formattedJ) Warning (errMsg d) ;;
          Normal (rendeDangerPeak ++ " (" ++ rendeDangerPeakType
                  ++ ", <em>J</em> = " ++ "      " ++ renderDangerJ ++ " Hz, "
                  ++ numberToString (hydrogenCount d) ++ "H)")
      end
  end.

(** [map(..., stringifyPeakData)]: the first exception ends the loop. *)
Fixpoint stringifyAll (willHighlightData : bool) (peaks : list PeakDatum)
  : completion (list string) :=
  match peaks with
  | [] => Normal []
  | p :: rest =>
      s <- stringifyPeakData willHighlightData p ;;
      ss <- stringifyAll willHighlightData rest ;;
      Normal (s :: ss)
  end.

(** The callback of [renderStrArrays]. *)
Definition renderRecord (willHighlightData : bool) (obj : H1RenderObj)
  : completion string :=
  headStr <-
    match metaErr obj with
    | Some (Some err) => Normal (Some err)
    | None => Normal None
    | Some None =>
        match meta obj with
        | None => TypeError
        | Some m =>
            match solventsInfo (solvent m) with
            | None => TypeError
            | Some formattedString =>
                Normal (Some ("<sup>1</sup>H NMR (" ++ numberToString (freq m)
                              ++ " MHz, " ++ "      " ++ formattedString
                              ++ ") δ "))
            end
        end
    end ;;
  peakStrs <-
    stringifyAll willHighlightData
      (match peaks obj with Some l => l | None => [] end) ;;
  let peakStr := String.concat ", " peakStrs in
  let line := Str.of_undefined headStr ++ peakStr ++ Str.of_undefined (tail obj) in
  Normal (if willHighlightData then "<strong>" ++ line ++ "</strong>" else line).

(** [renderStrArrays] *)
Fixpoint renderStrArrays (willHighlightData : bool)
    (h1RenderObjs : list H1RenderObj) : completion (list string) :=
  match h1RenderObjs with
  | [] => Normal []
  | obj :: rest =>
      s <- renderRecord willHighlightData obj ;;
      ss <- renderStrArrays willHighlightData rest ;;
      Normal (s :: ss)
  end.

(** The loop of [render] that builds [h1RenderObjs], from index [index]
    on. *)
Fixpoint renderObjs (index : nat) (metas : list (option Metadata))
    (peakDataObjs : list (list PeakDatum)) (tailArr : list string)
    (errorArr : list (option string)) : list H1RenderObj :=
  match metas with
  | [] => []
  | m :: rest =>
      {| meta := m;
         peaks := nth_error peakDataObjs index;
         tail := nth_error tailArr index;
         metaErr := nth_error errorArr index |}
      :: renderObjs (S index) rest peakDataObjs tailArr errorArr
  end.

(** [render]; [ComponentData] of utils/constants is the record declared
    with the HRMS component. *)
Definition render (metadataArr : list (option Metadata))
    (peakDataObjs : list (list PeakDatum)) (tailArr : list string)
    (errorArr : list (option string)) : completion HrmsComponent.ComponentData :=
  let h1RenderObjs := renderObjs 0 metadataArr peakDataObjs tailArr errorArr in
  outputPlain <- renderStrArrays false h1RenderObjs ;;
  outputRich <- renderStrArrays true h1RenderObjs ;;
  Normal {| HrmsComponent.input := matchedData;
            HrmsComponent.outputPlain := outputPlain;
            HrmsComponent.outputRich := outputRich |}.

(** [map(peakDatum, data => this.parsePeakData(data))] *)
Fixpoint parseTokens (tokens : list string) : completion (list PeakDatum) :=
  match tokens with
  | [] => Normal []
  | data :: rest =>
      d <- H1Component.parsePeakData isStrict currentLanguage h1PeakWithJs
             h1PeakWithoutJs JCount highlightData escapeSpace data ;;
      ds <- parseTokens rest ;;
      Normal (d :: ds)
  end.

Fixpoint parseRecords (peakData : list (list string))
  : completion (list (list PeakDatum)) :=
  match peakData with
  | [] => Normal []
  | tokens :: rest =>
      ds <- parseTokens tokens ;;
      dss <- parseRecords rest ;;
      Normal (ds :: dss)
  end.

(** The loop of [handle] that corrects every record with the frequency
    of its metadata, or with 1 when the metadata is [null]. *)
Fixpoint fixRecords (index : nat) (metadataArr : list (option Metadata))
    (peakDataObjs : list (list PeakDatum))
  : completion (list (list PeakDatum)) :=
  match peakDataObjs with
  | [] => Normal []
  | peakDatum :: rest =>
      f <- match nth_error metadataArr index with
           | None => TypeError
           | Some None => Normal (JS.of_Z 1)
           | Some (Some m) => Normal (freq m)
           end ;;
      fixed <- fixRecords (S index) metadataArr rest ;;
      Normal (map (fun peak =>
                     H1Component.fixPeakData generalChecked autoFixJChecked
                       currentLanguage isPeak isSinglePeak isMultiplePeak
                       isMultiplePeakWithJ peak f)
                  peakDatum :: fixed)
  end.

(** [handle], on the text of the input box; [None] is [null].  The test
    [isPeakDataObjContainNull] never holds, [parsePeakData] returning a
    string or an entry. *)
Definition handle (inputtedData : string) : completion (option HrmsComponent.ComponentData) :=
  match handleNMRData inputtedData isStrict with
  | None => Normal None
  | Some parsedData =>
      peakDataObjs <- parseRecords (peakData parsedData) ;;
      fixedPeakDataObj <- fixRecords 0 (metadataArr parsedData) peakDataObjs ;;
      cd <- render (metadataArr parsedData) fixedPeakDataObj
                   (tailArr parsedData) (errorArr parsedData) ;;
      Normal (Some cd)
  end.

End Component.

End H1Render.

(* ------------------------------------------------------------------ *)
(** ** appComponent.ts: [render] *)

Module AppComponent.

Import HrmsComponent.

(** [s.replace(/\n/g, '<br>')] *)
Fixpoint breakLines (s : string) : string :=
  match s with
  | EmptyString => EmptyString
  | String a s' =>
      if Ascii.eqb a "010" then "<br>" ++ breakLines s'
      else String a (breakLines s')
  end.

(** [s.replace(new RegExp(escapeRegExp(pattern), 'g'), replacement)]:
    every occurrence of the literal [pattern], left to right and without
    overlap; the empty pattern matches before every character and at the
    end.  [skip] counts the characters of the current match still to be
    passed over, [before] is the text already read. *)
Fixpoint replaceAll_aux (pattern replacement : string) (s : string)
    (skip : nat) (before : string) : string :=
  match s with
  | EmptyString =>
      match pattern with
      | EmptyString => Str.expand pattern before EmptyString replacement
      | _ => EmptyString
      end
  | String a s' =>
      match skip with
      | S k =>
          replaceAll_aux pattern replacement s' k (before ++ String a EmptyString)
      | O =>
          if String.prefix pattern s then
            let r :=
              Str.expand pattern before (Str.drop (String.length pattern) s)
                         replacement in
            match pattern with
            | EmptyString =>
                r ++ String a
                       (replaceAll_aux pattern replacement s' 0
                          (before ++ String a EmptyString))
            | _ =>
                r ++ replaceAll_aux pattern replacement s'
                       (String.length pattern - 1)
                       (before ++ String a EmptyString)
            end
          else
            String a (replaceAll_aux pattern replacement s' 0
                        (before ++ String a EmptyString))
      end
  end.

Definition replaceAll (s pattern replacement : string) : string :=
  replaceAll_aux pattern replacement s 0 EmptyString.

Section Component.

Variable highlightData : string -> HighlightType -> option string -> string.

(** [highlightData(undefined, type)], reached when a component has fewer
    highlighted lines than inputs. *)
Variable highlightUndefined : HighlightType -> completion string.

(** One step of the plain loop: [input] is replaced once by the plain
    line at its index, [undefined] printing as such. *)
Definition plainStep (plainText input : string) (outputPlain : option string)
  : string :=
  breakLines (Str.replace plainText input (Str.of_undefined outputPlain)).

(** One step of the highlighted loop. *)
Definition richStep (richText input : string) (outputRich : option string)
  : completion string :=
  replacement <-
    match outputRich with
    | Some out =>
        Normal (if Str.includes out "data-tooltip" then out
                else highlightData out Success None)
    | None => highlightUndefined Success
    end ;;
  Normal (breakLines (replaceAll richText input replacement)).

(** The inner [forEach] over [componentData.input], from index [index]. *)
Fixpoint plainInputs (inputs : list string) (index : nat)
    (outputs : list string) (plainText : string) : string :=
  match inputs with
  | [] => plainText
  | input :: rest =>
      plainInputs rest (S index) outputs
        (plainStep plainText input (nth_error outputs index))
  end.

Fixpoint richInputs (inputs : list string) (index : nat)
    (outputs : list string) (richText : string) : completion string :=
  match inputs with
  | [] => Normal richText
  | input :: rest =>
      t <- richStep richText input (nth_error outputs index) ;;
      richInputs rest (S index) outputs t
  end.

(** The outer [forEach] over the components. *)
Fixpoint plainComponents (componentsData : list ComponentData)
    (plainText : string) : string :=
  match componentsData with
  | [] => plainText
  | cd :: rest =>
      plainComponents rest (plainInputs (input cd) 0 (outputPlain cd) plainText)
  end.

Fixpoint richComponents (componentsData : list ComponentData)
    (richText : string) : completion string :=
  match componentsData with
  | [] => Normal richText
  | cd :: rest =>
      t <- richInputs (input cd) 0 (outputRich cd) richText ;;
      richComponents rest t
  end.

(** [render], on the text of the input box and the auto-copy switch:
    what is copied to the clipboard, if anything, and then the HTML
    written to the output element, unless the highlighted loop throws. *)
Definition render (inputValue : string) (autoCopy : bool)
    (componentsData : list ComponentData)
  : option string * completion string :=
  let copied :=
    if autoCopy then Some (plainComponents componentsData inputValue)
    else None in
  (copied, richComponents componentsData inputValue).

End Component.

End AppComponent.

(* ------------------------------------------------------------------ *)
(** ** More sample values *)

Module Cases.

(** A doublet of 7.5 Hz, a doublet of doublets, and a multiplet whose
    range the parser has flagged. *)
Definition doubletEntry : H1Component.H1Data :=
  {| H1Component.peak := H1Component.PStr (Some "7.26");
     H1Component.peakType := Some "d";
     H1Component.Js := Some [JS.Num (15 # 2)];
     H1Component.hydrogenCount := JS.Num 1;
     H1Component.danger := None;
     H1Component.warning := None;
     H1Component.peakTypeError := Some false;
     H1Component.errMsg := Some "" |}.

Definition doubleDoubletEntry : H1Component.H1Data :=
  {| H1Component.peak := H1Component.PStr (Some "7.26");
     H1Component.peakType := Some "dd";
     H1Component.Js := Some [JS.Num (38 # 5); JS.Num (6 # 5)];
     H1Component.hydrogenCount := JS.Num 1;
     H1Component.danger := None;
     H1Component.warning := None;
     H1Component.peakTypeError := Some false;
     H1Component.errMsg := Some "" |}.

Definition flaggedRange : H1Component.H1Data :=
  {| H1Component.peak := H1Component.PArr ["6.68"; "7.10"];
     H1Component.peakType := Some "m";
     H1Component.Js := None;
     H1Component.hydrogenCount := JS.Num 1;
     H1Component.danger := Some true;
     H1Component.warning := None;
     H1Component.peakTypeError := None;
     H1Component.errMsg :=
       Some "Chemical shift of multiplet should be written from low field to high field." |}.

(** An entry whose shift group was not captured. *)
Definition shiftless : H1Component.H1Data :=
  {| H1Component.peak := H1Component.PStr None;
     H1Component.peakType := Some "d";
     H1Component.Js := Some [JS.Num (38 # 5)];
     H1Component.hydrogenCount := JS.Num 1;
     H1Component.danger := None;
     H1Component.warning := None;
     H1Component.peakTypeError := Some false;
     H1Component.errMsg := Some "" |}.

(** A singlet token with what the pattern without constants captures on
    it, and a token that matches neither pattern. *)
Definition singlet : string := "7.26 (s, 1H".
Definition singletMatch : RegExpMatchArray :=
  [Some singlet; Some "7.26"; None; Some "s"; Some "1"].
Definition unreadable : string := "7.26 singlet".

Definition h1PeakWithoutJs (_ : bool) : string -> option RegExpMatchArray :=
  Sample.lookup [(singlet, singletMatch);
                 (Sample.descending, Sample.descendingMatch)].

Definition parsePeakData (isStrict : bool)
  : string -> completion H1Component.PeakDatum :=
  H1Component.parsePeakData isStrict English Sample.h1PeakWithJs h1PeakWithoutJs
    Tables.JCount Tables.highlightData Tables.escapeSpace.

(** [fixPeakData] on an entry, with the given general and auto-fix
    switches. *)
Definition fixEntry (generalChecked autoFixJChecked : bool)
  : H1Component.H1Data -> JS.number -> H1Component.H1Data :=
  H1Component.fixEntry generalChecked autoFixJChecked English Tables.isPeak
    Tables.isSinglePeak Tables.isMultiplePeak Tables.isMultiplePeakWithJ.

(** Stand-ins for [Number::toString] on the integers of the examples,
    for the solvent table and for [highlightData] on a value that is no
    string. *)
Definition numberToString (n : JS.number) : string :=
  match n with
  | JS.NaN => "NaN"
  | JS.Num q =>
      (if Qle_bool 0 q then "" else "-")
      ++ NilZero.string_of_uint (N.to_uint (Z.to_N (Z.abs (Qnum q))))
  end.

Definition solventsInfo (solvent : string) : option string :=
  if String.eqb solvent "cdcl3" then Some "CDCl<sub>3</sub>" else None.

Definition highlightOther (_ : H1Render.NonString) (_ : HighlightType)
    (_ : option string) : completion string := TypeError.

(** An NMR line of two peaks and what [handleNMRData] makes of it. *)
Definition nmrLine : string :=
  "1H NMR (400 MHz, CDCl3) δ 7.26 (s, 1H), 7.10–6.68 (m, 1H).".

Definition nmrData : H1Render.NMRData :=
  {| H1Render.peakData := [[singlet; Sample.descending]];
     H1Render.metadataArr :=
       [Some {| H1Render.type := "H";
                H1Render.freq := JS.Num 400;
                H1Render.solvent := "cdcl3" |}];
     H1Render.tailArr := ["."];
     H1Render.errorArr := [None] |}.

Definition handleNMRData (inputtedData : string) (_ : bool)
  : option H1Render.NMRData :=
  if String.eqb inputtedData nmrLine then Some nmrData else None.

Definition stringifyPeakData
  : bool -> H1Component.PeakDatum -> completion string :=
  H1Render.stringifyPeakData Tables.highlightData numberToString highlightOther.

Definition renderRecord : bool -> H1Render.H1RenderObj -> completion string :=
  H1Render.renderRecord Tables.highlightData numberToString solventsInfo
    highlightOther.

Definition handleH1 : string -> completion (option HrmsComponent.ComponentData) :=
  H1Render.handle true false true English Sample.h1PeakWithJs h1PeakWithoutJs
    Tables.JCount Tables.isPeak Tables.isSinglePeak Tables.isMultiplePeak
    Tables.isMultiplePeakWithJ Tables.highlightData Tables.escapeSpace
    numberToString solventsInfo highlightOther handleNMRData [nmrLine].

(** The record of the NMR line as [render] builds it. *)
Definition nmrRecord : H1Render.H1RenderObj :=
  {| H1Render.meta := Some {| H1Render.type := "H";
                              H1Render.freq := JS.Num 400;
                              H1Render.solvent := "cdcl3" |};
     H1Render.peaks :=
       Some [H1Component.Entry
               {| H1Component.peak := H1Component.PStr (Some "7.26");
                  H1Component.peakType := Some "s";
                  H1Component.Js := None;
                  H1Component.hydrogenCount := JS.Num 1;
                  H1Component.danger := Some false;
                  H1Component.warning := None;
                  H1Component.peakTypeError := None;
                  H1Component.errMsg := Some "" |}];
     H1Render.tail := Some ".";
     H1Render.metaErr := Some None |}.

(** An HRMS record whose exact mass has no decimal point. *)
Definition noPoint : string :=
  "HRMS (ESI): m/z [M + H]+ calcd for C10H13N2O 177; found 177.1025.".
Definition noPointRecord : HrmsComponent.HrmsData :=
  Sample.record "177" "177.1025" noPoint.

(** [render] of the page, with a stand-in for [highlightData] on
    [undefined]. *)
Definition renderPage
  : string -> bool -> list HrmsComponent.ComponentData
    -> option string * completion string :=
  AppComponent.render Tables.highlightData (fun _ => TypeError).

(** The HRMS lines of a description, as [handle] hands them over. *)
Definition hrmsData : HrmsComponent.ComponentData :=
  {| HrmsComponent.input := [Sample.good];
     HrmsComponent.outputPlain := [Sample.good];
     HrmsComponent.outputRich :=
       ["<b><success>HRMS (ESI): m/z [M + H]+ calcd for C<sub>10</sub>H<sub>13</sub>N<sub>2</sub>O 177.1022; found 177.1025.</success></b>"] |}.

Definition description : string :=
  "white solid, mp 101-103 C." ++ String "010" Sample.good.

End Cases.

(* ------------------------------------------------------------------ *)
(** ** Decimal strings *)

Module Decimals.





End Decimals.


(* ------------------------------------------------------------------ *)
(** * Properties *)

(** ** Coupling constants and the grid of [freq / 1000] Hz *)

Section CouplingConstants.

Import H1Component.
Local Open Scope Q_scope.

Lemma Qeq_bool_pos (q : Q) : 0 < q -> Qeq_bool q 0 = false.
Proof.
  intros H. destruct (Qeq_bool q 0) eqn:E; [|reflexivity].
  apply Qeq_bool_eq in E. rewrite E in H.
  exfalso. exact (Qlt_irrefl 0 H).
Qed.


(** [roundJ] on a positive frequency, with [Math.round] written out. *)
Lemma roundJ_positive (J freq : Q) :
  0 < freq ->
  roundJ (JS.Num J) (JS.Num freq) = JS.Num (snapToGrid J freq).
Proof.
  intros H. unfold roundJ, MAGNIFICATION, JS.of_Z, JS.mul, JS.lift2, JS.div.
  rewrite (Qeq_bool_pos freq H). reflexivity.
Qed.

(** A nonzero multiple of [freq / 1000] passes [isJValid]. *)
Lemma isJValid_multiple (k : Z) (freq r : Q) :
  0 < freq -> k <> 0%Z -> r == inject_Z k * freq / 1000 ->
  isJValid (Some (JS.Num r)) (JS.Num freq) = true.
Proof.
  intros Hf Hk Hr. unfold isJValid, JS.truthy.
  assert (Hnz : ~ r == 0).
  { rewrite Hr. intros E.
    assert (E' : inject_Z k * freq == 0).
    { setoid_replace (inject_Z k * freq)
        with (inject_Z k * freq / 1000 * 1000) by field.
      rewrite E. ring. }
    apply Qmult_integral in E'. destruct E' as [E'|E']; [|lra].
    apply Hk. unfold Qeq in E'. simpl in E'. lia. }
  destruct (Qeq_bool r 0) eqn:E; [apply Qeq_bool_eq in E; contradiction|].
  cbn [negb]. unfold MAGNIFICATION, JS.of_Z, JS.mul, JS.lift2, JS.rem, JS.eqb.
  rewrite (Qeq_bool_pos freq Hf).
  apply Qeq_bool_iff.
  change (inject_Z 1000) with 1000. change (inject_Z 0) with 0.
  assert (Hdiv : 1000 * r / freq == inject_Z k).
  { rewrite Hr. field. lra. }
  assert (Ht : JS.trunc (1000 * r / freq) = k).
  { unfold JS.trunc.
    rewrite (Qfloor_comp _ _ Hdiv), (Qceiling_comp _ _ Hdiv), Qfloor_Z, Qceiling_Z.
    destruct (Qle_bool 0 _); reflexivity. }
  rewrite Ht, Hr. field.
Qed.

(** A constant that does not round to 0 is valid once rounded. *)
Lemma isJValid_roundJ (J freq : Q) :
  0 < freq -> Qfloor (1000 * J / freq + (1 # 2)) <> 0%Z ->
  isJValid (Some (roundJ (JS.Num J) (JS.Num freq))) (JS.Num freq) = true.
Proof.
  intros Hf Hk. rewrite (roundJ_positive J freq Hf).
  apply (isJValid_multiple (Qfloor (1000 * J / freq + (1 # 2)))); try assumption.
  reflexivity.
Qed.

(** C4, as the code has it: at 400 MHz the constant 7.6 Hz is valid.
    [1000 * 7.6] is 7600, the 19th multiple of 400, and the remainder is
    0; the same holds on binary64 values, where the product of 1000 and
    the double nearest to 7.6 is exactly 7600. *)
Theorem isJValid_7_6_at_400 :
  isJValid (Some (JS.Number "7.6")) (JS.Number "400") = true
  /\ B64.isJValid (B64.of_decimal 76 1) (B64.of_Z 400) = true
  /\ B64.mul (B64.of_Z 1000) (B64.of_decimal 76 1) = B64.of_Z 7600.
Proof.
  repeat split; vm_compute; reflexivity.
Qed.

(** C4, as stated ([isJValid(7.6, 400)] is false), fails. *)
Lemma isJValid_7_6_at_400_is_not_false :
  isJValid (Some (JS.Number "7.6")) (JS.Number "400") <> false.
Proof.
  vm_compute. discriminate.
Qed.



(** The same two roundings on binary64 values: 7.5 Hz becomes the double
    nearest to 7.6, and 0.1 Hz becomes 0. *)
Lemma roundJ_binary64_at_400 :
  B64.roundJ (B64.of_decimal 75 1) (B64.of_Z 400) = B64.of_decimal 76 1
  /\ B64.roundJ (B64.of_decimal 1 1) (B64.of_Z 400) = B64.of_Z 0
  /\ B64.isJValid (B64.of_Z 0) (B64.of_Z 400) = false.
Proof.
  repeat split; vm_compute; reflexivity.
Qed.

End CouplingConstants.

(* ------------------------------------------------------------------ *)
(** ** The corrector, [fixPeakData] *)

Section Corrector.

Import H1Component.

Variables generalChecked autoFixJChecked : bool.
Variable currentLanguage : Languages.
Variables isPeak isSinglePeak isMultiplePeak : option string -> bool.
Variable isMultiplePeakWithJ : option string -> bool -> bool.

#[local] Abbreviation fixEntry :=
  (H1Component.fixEntry generalChecked autoFixJChecked currentLanguage isPeak
     isSinglePeak isMultiplePeak isMultiplePeakWithJ).
#[local] Abbreviation fixPeakData :=
  (H1Component.fixPeakData generalChecked autoFixJChecked currentLanguage isPeak
     isSinglePeak isMultiplePeak isMultiplePeakWithJ).
#[local] Abbreviation coerced :=
  (H1Component.coerced generalChecked isPeak isSinglePeak isMultiplePeak
     isMultiplePeakWithJ).

Lemma forallb_map {A B : Type} (f : B -> bool) (g : A -> B) (l : list A) :
  forallb f (map g l) = forallb (fun a => f (g a)) l.
Proof.
  induction l as [|a l IH]; cbn; [reflexivity|]. now rewrite IH.
Qed.

(** A test already decided is decided the same way on the second pass. *)
Ltac same_test :=
  match goal with
  | H : ?b = _ |- context [?b] => rewrite H
  end.

Ltac fields :=
  cbn -[isJValid roundJ tooltip String.append joinJs Str.of_undefined].


(** In exact arithmetic the rounded constants are valid as soon as the
    frequency is positive and no constant rounds to 0. *)
Lemma roundedValid_exact (d : H1Data) (qs : list Q) (freq : Q) :
  (0 < freq)%Q ->
  Js d = Some (map JS.Num qs) ->
  Forall (fun q => Qfloor (1000 * q / freq + (1 # 2))%Q <> 0%Z) qs ->
  roundedValid (Entry d) (JS.Num freq) = true.
Proof.
  intros Hf Hjs Hqs. unfold roundedValid. rewrite Hjs, forallb_map.
  apply forallb_forall. intros q Hq.
  apply isJValid_roundJ; [exact Hf|].
  rewrite Forall_forall in Hqs. exact (Hqs q Hq).
Qed.


(** Step 6 is not stable: once an entry is turned into a multiplet on the
    placeholder range, a second pass reports the placeholder as a shift
    that is no interval. *)
Lemma fixEntry_coerced_twice (d : H1Data) (freq : JS.number) :
  coerced (Entry d) = true ->
  isPeak (Some "m") = true -> isMultiplePeak (Some "m") = true ->
  errMsg (fixEntry (fixEntry d freq) freq) = Some (tooltip 4 currentLanguage)
  /\ errMsg (fixEntry d freq)
     = Some (Str.of_undefined (peakType d) ++ "            "
             ++ tooltip 10 currentLanguage).
Proof.
  destruct d as [p t js h dg w pte em].
  unfold H1Component.coerced, H1Component.fixEntry, markAsMultiplet.
  cbn [peakType]. intros Hc Hp Hm.
  destruct (isPeak t) eqn:E1, (isMultiplePeak t) eqn:E2, (isSinglePeak t) eqn:E3,
    (isMultiplePeakWithJ t (negb generalChecked)) eqn:E4; try discriminate Hc.
  clear Hc.
  destruct p as [[s|]|l]; fields; repeat (same_test; fields); split; reflexivity.
Qed.

End Corrector.



(* ------------------------------------------------------------------ *)
(** ** The peak parser, [parsePeakData] *)

Section PeakParser.

Import H1Component.

Variable isStrict : bool.
Variable currentLanguage : Languages.
Variables h1PeakWithJs h1PeakWithoutJs : bool -> string -> option RegExpMatchArray.
Variable JCount : option string -> option nat.
Variable highlightData : string -> HighlightType -> option string -> string.
Variable escapeSpace : string -> string.

#[local] Abbreviation parsePeakData :=
  (H1Component.parsePeakData isStrict currentLanguage h1PeakWithJs
     h1PeakWithoutJs JCount highlightData escapeSpace).

(** An entry whose shift is an array comes from the last branch of the
    pattern without constants: the flag is the comparison of the first
    two pieces of the shift. *)
Lemma parsePeakData_range (data : string) (e : H1Data) (l : list string) :
  parsePeakData data = Normal (Entry e) ->
  peak e = PArr l ->
  Js e = None
  /\ danger e = Some (JS.ltb (JS.Number_opt (nth_error l 0))
                             (JS.Number_opt (nth_error l 1)))
  /\ errMsg e = Some (if JS.ltb (JS.Number_opt (nth_error l 0))
                                (JS.Number_opt (nth_error l 1))
                      then tooltip 2 currentLanguage else "").
Proof.
  unfold H1Component.parsePeakData, parsePeakData_matched.
  destruct (h1PeakWithJs isStrict data) as [cm|].
  { intros H; injection H as <-. discriminate. }
  destruct (h1PeakWithoutJs isStrict data) as [ncm|]; [|discriminate].
  destruct (group ncm 1) as [shift|]; [|discriminate].
  destruct (group ncm 0) as [whole|]; [|discriminate].
  destruct (negb (Str.mem validEnding (Str.last1 whole))); [discriminate|].
  destruct (isStrict && _ && _)%bool.
  { intros H; injection H as <-. discriminate. }
  intros H; injection H as <-. cbn [peak Js danger errMsg].
  destruct (SplitReg.split shift) as [|p [|q rest]]; intros Hl;
    try discriminate Hl; injection Hl as <-; repeat split; reflexivity.
Qed.

(** What [parsePeakData] returns has a string for its shift whenever it
    has coupling constants, provided the pattern with constants captured
    the shift. *)
Lemma parsePeakData_singleShiftWithJs (data : string) (d : PeakDatum) :
  parsePeakData data = Normal d ->
  (forall cm, h1PeakWithJs isStrict data = Some cm -> group cm 1 <> None) ->
  singleShiftWithJs d = true.
Proof.
  unfold H1Component.parsePeakData, parsePeakData_matched.
  destruct (h1PeakWithJs isStrict data) as [cm|].
  { intros H Hg; injection H as <-. cbn.
    destruct (group cm 1) eqn:E; [reflexivity|].
    exfalso. exact (Hg cm eq_refl E). }
  intros H _. revert H.
  destruct (h1PeakWithoutJs isStrict data) as [ncm|].
  - destruct (group ncm 1) as [shift|]; [|discriminate].
    destruct (group ncm 0) as [whole|]; [|discriminate].
    destruct (negb (Str.mem validEnding (Str.last1 whole))).
    { intros H; injection H as <-. reflexivity. }
    destruct (isStrict && _ && _)%bool; intros H; injection H as <-; reflexivity.
  - intros H; injection H as <-. reflexivity.
Qed.

(** C7, as the code has it: an entry parsed without coupling constants
    whose shift is a two-value range is flagged Danger, with the
    low-field-to-high-field message, exactly when the first bound is
    numerically less than the second; otherwise the flag is false and
    the message empty. *)
Theorem range_flagged_when_ascending (data : string) (e : H1Data) (a b : string) :
  parsePeakData data = Normal (Entry e) ->
  Js e = None ->
  peak e = PArr [a; b] ->
  danger e = Some (JS.ltb (JS.Number a) (JS.Number b))
  /\ errMsg e = Some (if JS.ltb (JS.Number a) (JS.Number b)
                      then tooltip 2 currentLanguage else "").
Proof.
  intros Hp _ Hr.
  destruct (parsePeakData_range data e [a; b] Hp Hr) as (_ & Hd & Hm).
  split; assumption.
Qed.

(** C10: an entry parsed without coupling constants whose shift is a
    range of two numerically equal bounds is not flagged: the danger
    field is false and the message is empty. *)
Theorem equal_bounds_not_flagged (data : string) (e : H1Data) (a b : string)
    (x y : Q) :
  parsePeakData data = Normal (Entry e) ->
  Js e = None ->
  peak e = PArr [a; b] ->
  JS.Number a = JS.Num x ->
  JS.Number b = JS.Num y ->
  (x == y)%Q ->
  danger e = Some false /\ errMsg e = Some "".
Proof.
  intros Hp _ Hr Ha Hb Hxy.
  destruct (parsePeakData_range data e [a; b] Hp Hr) as (_ & Hd & Hm).
  cbn [nth_error JS.Number_opt] in Hd, Hm. rewrite Ha, Hb in Hd, Hm.
  assert (Hlt : JS.ltb (JS.Num x) (JS.Num y) = false).
  { unfold JS.ltb. apply negb_false_iff, Qle_bool_iff.
    rewrite Hxy. apply Qle_refl. }
  rewrite Hlt in Hd, Hm. split; assumption.
Qed.


End PeakParser.

(** C7, as stated (flagged when the first bound is not less than the
    second), fails: 7.10 is not less than 6.68, and the range 7.10-6.68
    is returned with a false danger flag and an empty message. *)
Lemma descending_range_not_flagged :
  JS.ltb (JS.Number "7.10") (JS.Number "6.68") = false
  /\ Sample.parsePeakData true Sample.descending
     = Normal (H1Component.Entry
         {| H1Component.peak := H1Component.PArr ["7.10"; "6.68"];
            H1Component.peakType := Some "m";
            H1Component.Js := None;
            H1Component.hydrogenCount := JS.Num 1;
            H1Component.danger := Some false;
            H1Component.warning := None;
            H1Component.peakTypeError := None;
            H1Component.errMsg := Some "" |}).
Proof.
  split; vm_compute; reflexivity.
Qed.

(** The range 6.68-7.10 is flagged. *)
Lemma range_flagged_when_ascending_sample :
  exists e,
    Sample.parsePeakData true Sample.ascending = Normal (H1Component.Entry e)
    /\ H1Component.danger e = Some true
    /\ H1Component.errMsg e
       = Some "Chemical shift of multiplet should be written from low field to high field.".
Proof.
  eexists. split; [vm_compute; reflexivity|].
  apply (range_flagged_when_ascending true English Sample.h1PeakWithJs
           Sample.h1PeakWithoutJs Tables.JCount Tables.highlightData
           Tables.escapeSpace Sample.ascending _ "6.68" "7.10");
    vm_compute; reflexivity.
Defined.

(** The range 7.10-7.10 is not flagged. *)
Lemma equal_bounds_not_flagged_sample :
  exists e,
    Sample.parsePeakData true Sample.level = Normal (H1Component.Entry e)
    /\ H1Component.danger e = Some false
    /\ H1Component.errMsg e = Some "".
Proof.
  eexists. split; [vm_compute; reflexivity|].
  apply (equal_bounds_not_flagged true English Sample.h1PeakWithJs
           Sample.h1PeakWithoutJs Tables.JCount Tables.highlightData
           Tables.escapeSpace Sample.level _ "7.10" "7.10" (71 # 10) (71 # 10));
    vm_compute; reflexivity.
Defined.


(* ------------------------------------------------------------------ *)
(** ** The HRMS validator *)

Section HrmsValidator.

Import HrmsComponent.

Variable isStrict : bool.
Variable currentLanguage : Languages.
Variables yieldReg weightReg hrmsReg : string -> option RegExpMatchArray.
Variables sourceReg ionReg dataReg : string -> option RegExpMatchArray.
Variable isValid : string -> bool.
Variable getExactMass : string -> JS.number.
Variables formulaToString formulaToFormattedString : string -> string.
Variable highlightData : string -> HighlightType -> option string -> string.

#[local] Abbreviation getHrmsDataLine :=
  (HrmsComponent.getHrmsDataLine isStrict currentLanguage yieldReg weightReg
     hrmsReg highlightData).
#[local] Abbreviation getHrmsDataArray :=
  (HrmsComponent.getHrmsDataArray isStrict currentLanguage yieldReg weightReg
     hrmsReg highlightData).
#[local] Abbreviation parseHrmsData :=
  (HrmsComponent.parseHrmsData isStrict currentLanguage sourceReg ionReg dataReg
     isValid getExactMass highlightData).
#[local] Abbreviation checkIon :=
  (HrmsComponent.checkIon isStrict currentLanguage highlightData).
#[local] Abbreviation renderChecked :=
  (HrmsComponent.renderChecked currentLanguage formulaToString
     formulaToFormattedString highlightData).
#[local] Abbreviation renderStr :=
  (HrmsComponent.renderStr isStrict currentLanguage formulaToString
     formulaToFormattedString highlightData).
#[local] Abbreviation dangerOnCondition :=
  (HrmsComponent.dangerOnCondition highlightData).
#[local] Abbreviation handle :=
  (HrmsComponent.handle isStrict currentLanguage yieldReg weightReg hrmsReg
     sourceReg ionReg dataReg isValid getExactMass formulaToString
     formulaToFormattedString highlightData).
#[local] Abbreviation checkedRecord := (HrmsComponent.checkedRecord isStrict).

(** *** Lines without an HRMS clause *)

Lemma split_aux_not_nil (c : ascii) (s cur : string) :
  Str.split_aux c cur s <> [].
Proof.
  revert cur. induction s as [|a s IH]; intros cur; cbn; [discriminate|].
  destruct (Ascii.eqb a c); [discriminate|apply IH].
Qed.

Lemma compact_app {A : Type} (l1 l2 : list (option A)) :
  compact (l1 ++ l2)%list = (compact l1 ++ compact l2)%list.
Proof.
  induction l1 as [|[a|] l1 IH]; cbn; [reflexivity| |exact IH].
  now rewrite IH.
Qed.

(** On a text that is not empty every line goes through the callback. *)
Lemma getHrmsDataArray_lines (inputtedData : string) :
  Str.split "010" inputtedData <> [""] ->
  getHrmsDataArray inputtedData
  = Some (map getHrmsDataLine (Str.split "010" inputtedData)).
Proof.
  unfold HrmsComponent.getHrmsDataArray.
  destruct (Str.split "010" inputtedData) as [|[|a s] [|l ls]];
    intros H; try reflexivity.
  contradiction H. reflexivity.
Qed.

(** C1, as the code has it: a line that does not match [hrmsReg] yields
    no record at all.  Its callback returns [null], which [handle] drops
    before parsing; alone, the line makes [handle] return [null]; among
    other lines, the result is that of the text without it. *)
Theorem line_without_clause_is_skipped (data : string) :
  hrmsReg data = None ->
  getHrmsDataLine data = None
  /\ (forall inputtedData,
        Str.split "010" inputtedData = [data] ->
        handle inputtedData = Normal None)
  /\ (forall inputtedData inputtedData' l1 l2,
        Str.split "010" inputtedData = (l1 ++ data :: l2)%list ->
        Str.split "010" inputtedData' = (l1 ++ l2)%list ->
        (l1 ++ l2)%list <> [""] ->
        handle inputtedData = handle inputtedData').
Proof.
  intros Hno.
  assert (Hline : getHrmsDataLine data = None).
  { unfold HrmsComponent.getHrmsDataLine. now rewrite Hno. }
  split; [exact Hline|]. split.
  - intros inputtedData Hs. unfold HrmsComponent.handle.
    destruct data as [|a d].
    + unfold HrmsComponent.getHrmsDataArray. rewrite Hs. reflexivity.
    + rewrite getHrmsDataArray_lines by (rewrite Hs; discriminate).
      rewrite Hs. cbn [map]. rewrite Hline. reflexivity.
  - intros inputtedData inputtedData' l1 l2 Hs Hs' Hne.
    unfold HrmsComponent.handle.
    rewrite (getHrmsDataArray_lines inputtedData'), Hs' by (rewrite Hs'; exact Hne).
    rewrite (getHrmsDataArray_lines inputtedData), Hs.
    + rewrite !map_app, !compact_app. cbn [map compact]. rewrite Hline.
      reflexivity.
    + rewrite Hs. destruct l1 as [|x [|y l1]], l2 as [|z l2]; try discriminate.
      exfalso. apply (split_aux_not_nil "010" inputtedData' "").
      exact Hs'.
Qed.

(** *** The calculated mass *)



(** *** The checks of [renderStrArrays] *)



End HrmsValidator.

(** C1, as stated (a Danger-annotated record for the line), fails: the
    melting-point line matches no HRMS clause; alone it makes [handle]
    return [null], and after an HRMS line it leaves that line's record
    as the only one, in the input and in both outputs. *)
Lemma line_without_clause_has_no_record :
  Sample.hrmsReg Sample.noClause = None
  /\ Sample.handle true Sample.noClause = Normal None
  /\ Sample.handle true (Sample.good ++ String "010" Sample.noClause)
     = Normal (Some
         {| HrmsComponent.input := [Sample.good];
            HrmsComponent.outputPlain := [Sample.good];
            HrmsComponent.outputRich :=
              ["<b><success>HRMS (ESI): m/z [M + H]+ calcd for C<sub>10</sub>H<sub>13</sub>N<sub>2</sub>O 177.1022; found 177.1025.</success></b>"] |}).
Proof.
  repeat split; vm_compute; reflexivity.
Qed.

(** The melting-point line after an HRMS line changes nothing. *)
Lemma line_without_clause_is_skipped_sample :
  Sample.handle true (Sample.good ++ String "010" Sample.noClause)
  = Sample.handle true Sample.good.
Proof.
  destruct (line_without_clause_is_skipped true English Sample.yieldReg
              Sample.weightReg Sample.hrmsReg Sample.sourceReg Sample.ionReg
              Sample.dataReg Sample.isValid Sample.getExactMass
              Sample.formulaToString Sample.formulaToFormattedString
              Tables.highlightData Sample.noClause eq_refl) as (_ & _ & H).
  apply (H _ _ [Sample.good] []); [reflexivity|reflexivity|discriminate].
Defined.






(* ------------------------------------------------------------------ *)
(** ** The grid of coupling constants and the corrector *)

Section GridArithmetic.

Import H1Component.
Local Open Scope Q_scope.







End GridArithmetic.

Section CorrectorInvariants.

Import H1Component.

Variables generalChecked autoFixJChecked : bool.
Variable currentLanguage : Languages.
Variables isPeak isSinglePeak isMultiplePeak : option string -> bool.
Variable isMultiplePeakWithJ : option string -> bool -> bool.

#[local] Abbreviation fixEntry :=
  (H1Component.fixEntry generalChecked autoFixJChecked currentLanguage isPeak
     isSinglePeak isMultiplePeak isMultiplePeakWithJ).
#[local] Abbreviation coerced :=
  (H1Component.coerced generalChecked isPeak isSinglePeak isMultiplePeak
     isMultiplePeakWithJ).

Ltac cases d :=
  destruct d as [p t js h dg w pte em];
  unfold H1Component.coerced, H1Component.fixEntry, fixJs, markAsMultiplet;
  destruct p as [[s|]|l], js as [js|];
  cbn -[isJValid roundJ tooltip String.append joinJs Str.of_undefined];
  destruct (isPeak t), (isMultiplePeak t), (isSinglePeak t),
    (isMultiplePeakWithJ t (negb generalChecked)), autoFixJChecked;
  cbn -[isJValid roundJ tooltip String.append joinJs Str.of_undefined];
  repeat match goal with
         | |- context [if ?c then _ else _] => destruct c eqn:?
         end;
  cbn -[isJValid roundJ tooltip String.append joinJs Str.of_undefined].

(** X5: [fixPeakData] never clears a flag: an entry that comes in with
    [danger], [warning] or [peakTypeError] set leaves with it set. *)
Theorem fixPeakData_keeps_flags (d : H1Data) (freq : JS.number) :
  (flag (danger d) = true -> flag (danger (fixEntry d freq)) = true)
  /\ (flag (warning d) = true -> flag (warning (fixEntry d freq)) = true)
  /\ (flag (peakTypeError d) = true ->
      flag (peakTypeError (fixEntry d freq)) = true).
Proof.
  cases d; repeat split; intros; (assumption || reflexivity).
Qed.

(** X6: unless the entry is turned into a multiplet (a recognised type
    that is neither the multiplet, nor single, nor one with constants),
    [fixPeakData] leaves shift, type and hydrogen count as they were and
    keeps the number of coupling constants. *)
Theorem fixPeakData_touches_shift_only_in_step_6 (d : H1Data) (freq : JS.number) :
  coerced (Entry d) = false ->
  peak (fixEntry d freq) = peak d
  /\ peakType (fixEntry d freq) = peakType d
  /\ hydrogenCount (fixEntry d freq) = hydrogenCount d
  /\ option_map (@List.length JS.number) (Js (fixEntry d freq))
     = option_map (@List.length JS.number) (Js d).
Proof.
  cases d; intros Hc; try discriminate Hc; repeat split;
    cbn [option_map]; now rewrite ?length_map.
Qed.

(** X7: with auto-fix off, [fixPeakData] leaves the coupling constants
    of an entry it does not turn into a multiplet as they were, and
    raises no [peakTypeError] on a recognised type that is not single. *)
Theorem fixPeakData_without_autoFix_keeps_constants (d : H1Data)
    (freq : JS.number) :
  autoFixJChecked = false ->
  coerced (Entry d) = false ->
  Js (fixEntry d freq) = Js d
  /\ (flag (peakTypeError d) = false -> isSinglePeak (peakType d) = false ->
        isPeak (peakType d) = true ->
        flag (peakTypeError (fixEntry d freq)) = false).
Proof.
  intros Ha. revert d. rewrite Ha. intros d.
  destruct d as [p t js h dg w pte em];
  unfold H1Component.coerced, H1Component.fixEntry, fixJs, markAsMultiplet;
  destruct p as [[s|]|l], js as [js|];
  cbn -[isJValid roundJ tooltip String.append joinJs Str.of_undefined];
  destruct (isPeak t), (isMultiplePeak t), (isSinglePeak t),
    (isMultiplePeakWithJ t (negb generalChecked));
  cbn -[isJValid roundJ tooltip String.append joinJs Str.of_undefined];
  intros Hc; try discriminate Hc; split; try reflexivity;
  intros; (assumption || discriminate).
Qed.




End CorrectorInvariants.





Lemma fixPeakData_keeps_flags_range :
  H1Component.flag
    (H1Component.danger
       (Cases.fixEntry false true Cases.flaggedRange Sample.MHz400)) = true.
Proof.
  apply (proj1 (fixPeakData_keeps_flags false true English Tables.isPeak
                  Tables.isSinglePeak Tables.isMultiplePeak
                  Tables.isMultiplePeakWithJ Cases.flaggedRange Sample.MHz400)).
  reflexivity.
Defined.

Lemma fixPeakData_touches_shift_only_in_step_6_doublet :
  H1Component.peak (Cases.fixEntry false true Cases.doubletEntry Sample.MHz400)
  = H1Component.peak Cases.doubletEntry
  /\ H1Component.peakType
       (Cases.fixEntry false true Cases.doubletEntry Sample.MHz400)
     = H1Component.peakType Cases.doubletEntry
  /\ H1Component.hydrogenCount
       (Cases.fixEntry false true Cases.doubletEntry Sample.MHz400)
     = H1Component.hydrogenCount Cases.doubletEntry
  /\ option_map (@List.length JS.number)
       (H1Component.Js
          (Cases.fixEntry false true Cases.doubletEntry Sample.MHz400))
     = option_map (@List.length JS.number)
         (H1Component.Js Cases.doubletEntry).
Proof.
  apply (fixPeakData_touches_shift_only_in_step_6 false true English
           Tables.isPeak Tables.isSinglePeak Tables.isMultiplePeak
           Tables.isMultiplePeakWithJ Cases.doubletEntry Sample.MHz400).
  reflexivity.
Defined.

Lemma fixPeakData_without_autoFix_keeps_constants_doublet :
  H1Component.Js (Cases.fixEntry false false Cases.doubletEntry Sample.MHz400)
  = H1Component.Js Cases.doubletEntry
  /\ (H1Component.flag (H1Component.peakTypeError Cases.doubletEntry) = false ->
      Tables.isSinglePeak (H1Component.peakType Cases.doubletEntry) = false ->
      Tables.isPeak (H1Component.peakType Cases.doubletEntry) = true ->
      H1Component.flag
        (H1Component.peakTypeError
           (Cases.fixEntry false false Cases.doubletEntry Sample.MHz400))
      = false).
Proof.
  apply (fixPeakData_without_autoFix_keeps_constants false false English
           Tables.isPeak Tables.isSinglePeak Tables.isMultiplePeak
           Tables.isMultiplePeakWithJ Cases.doubletEntry Sample.MHz400);
    reflexivity.
Defined.


(* ------------------------------------------------------------------ *)
(** ** Reading a peak token *)

Section PeakTokens.

Import H1Component.

Variable isStrict : bool.
Variable currentLanguage : Languages.
Variables h1PeakWithJs h1PeakWithoutJs : bool -> string -> option RegExpMatchArray.
Variable JCount : option string -> option nat.
Variable highlightData : string -> HighlightType -> option string -> string.
Variable escapeSpace : string -> string.

#[local] Abbreviation parsePeakData :=
  (H1Component.parsePeakData isStrict currentLanguage h1PeakWithJs
     h1PeakWithoutJs JCount highlightData escapeSpace).
#[local] Abbreviation invalidToken :=
  (H1Component.invalidToken currentLanguage highlightData escapeSpace).

Lemma str_append_empty_r (s : string) : s ++ "" = s.
Proof. induction s as [|a s IH]; cbn; [reflexivity|now rewrite IH]. Qed.

Lemma str_append_assoc (a b c : string) : (a ++ b) ++ c = a ++ (b ++ c).
Proof. induction a as [|x a IH]; cbn; [reflexivity|now rewrite IH]. Qed.

(** Where the pattern finds no match, [split] returns the string whole. *)
Lemma split_aux_without_match (s cur : string) :
  SplitReg.exec s = None -> SplitReg.split_aux s 0 cur = [cur ++ s].
Proof.
  revert cur. induction s as [|a s IH]; intros cur; cbn [SplitReg.exec SplitReg.split_aux].
  - intros _. now rewrite str_append_empty_r.
  - destruct (SplitReg.here (String a s)); [discriminate|].
    intros H. rewrite (IH _ H), str_append_assoc. reflexivity.
Qed.

(** X9: a token without coupling constants whose shift holds no dash
    and whose match ends in [H], a full stop or a semicolon is read,
    strict or not, as an entry with that shift, without constants, with
    [danger] false and an empty message. *)
Theorem single_shift_is_not_flagged (data shift whole : string)
    (ncm : RegExpMatchArray) :
  h1PeakWithJs isStrict data = None ->
  h1PeakWithoutJs isStrict data = Some ncm ->
  group ncm 1 = Some shift ->
  group ncm 0 = Some whole ->
  Str.mem validEnding (Str.last1 whole) = true ->
  SplitReg.exec shift = None ->
  parsePeakData data
  = Normal (Entry {| peak := PStr (Some shift);
                     peakType := group ncm 3;
                     Js := None;
                     hydrogenCount := JS.Number_opt (group ncm 4);
                     danger := Some false;
                     warning := None;
                     peakTypeError := None;
                     errMsg := Some "" |}).
Proof.
  intros Hj Hn H1 H0 He Hx.
  unfold H1Component.parsePeakData, parsePeakData_matched.
  rewrite Hj, Hn, H1, H0, He, Hx. cbn [negb]. rewrite andb_false_r.
  unfold SplitReg.split. rewrite (split_aux_without_match shift "" Hx).
  cbn [String.append nth_error JS.Number_opt]. unfold JS.ltb.
  destruct (JS.Number shift); reflexivity.
Qed.

(** X10: [parsePeakData] throws exactly when the pattern with
    constants fails and the pattern without constants matches with its
    shift group, or the whole match, not captured. *)
Theorem parsePeakData_throws_iff (data : string) :
  parsePeakData data = TypeError
  <-> h1PeakWithJs isStrict data = None
      /\ exists ncm, h1PeakWithoutJs isStrict data = Some ncm
                     /\ (group ncm 1 = None \/ group ncm 0 = None).
Proof.
  unfold H1Component.parsePeakData, parsePeakData_matched.
  destruct (h1PeakWithJs isStrict data) as [cm|].
  { split; [intros H; discriminate H|]. intros [H _]. discriminate H. }
  destruct (h1PeakWithoutJs isStrict data) as [ncm|].
  - destruct (group ncm 1) as [shift|] eqn:E1.
    + destruct (group ncm 0) as [whole|] eqn:E0.
      * split.
        -- destruct (negb (Str.mem validEnding (Str.last1 whole)));
             [intros H; discriminate H|].
           destruct (isStrict && _ && _)%bool; intros H; discriminate H.
        -- intros (_ & m & Hm & Hcase).
           assert (Hsame : ncm = m) by congruence. subst m.
           destruct Hcase as [Hc|Hc]; rewrite Hc in *; discriminate.
      * split; [|reflexivity]. intros _. split; [reflexivity|].
        exists ncm. split; [reflexivity|]. now right.
    + split; [|reflexivity]. intros _. split; [reflexivity|].
      exists ncm. split; [reflexivity|]. now left.
  - split; [intros H; discriminate H|]. intros (_ & m & Hm & _). discriminate Hm.
Qed.

Lemma index_append_paren (s : string) : String.index 0 ")" (s ++ ")") <> None.
Proof.
  induction s as [|a s IH]; cbn [String.append String.index String.prefix];
    [discriminate|].
  destruct (Ascii.ascii_dec ")" a);
    [destruct (String.prefix "" (s ++ ")")); [discriminate|]|];
    (destruct (String.index 0 ")" (s ++ ")")); [discriminate|contradiction]).
Qed.

(** X11: a token [parsePeakData] rejects is returned highlighted as
    invalid, with a closing parenthesis added when it has none. *)
Theorem rejected_token_is_closed (data html : string) :
  parsePeakData data = Normal (Flagged html) ->
  exists token,
    html = highlightData (escapeSpace token) Danger
             (Some (tooltip 1 currentLanguage))
    /\ Str.includes token ")" = true
    /\ (token = data \/ (Str.includes data ")" = false /\ token = data ++ ")")).
Proof.
  assert (Hinv : forall h, invalidToken data = h ->
    exists token,
      h = highlightData (escapeSpace token) Danger (Some (tooltip 1 currentLanguage))
      /\ Str.includes token ")" = true
      /\ (token = data \/ (Str.includes data ")" = false /\ token = data ++ ")"))).
  { intros h <-. unfold H1Component.invalidToken.
    destruct (Str.includes data ")") eqn:E.
    - exists data. repeat split; [exact E|now left].
    - exists (data ++ ")"). repeat split; [|now right].
      unfold Str.includes. pose proof (index_append_paren data) as H.
      destruct (String.index 0 ")" (data ++ ")")); [reflexivity|contradiction]. }
  unfold H1Component.parsePeakData, parsePeakData_matched.
  destruct (h1PeakWithJs isStrict data) as [cm|]; [discriminate|].
  destruct (h1PeakWithoutJs isStrict data) as [ncm|].
  - destruct (group ncm 1) as [shift|]; [|discriminate].
    destruct (group ncm 0) as [whole|]; [|discriminate].
    destruct (negb _).
    + intros H; injection H as H. exact (Hinv _ H).
    + destruct (_ && _ && _)%bool; discriminate.
  - intros H; injection H as H. exact (Hinv _ H).
Qed.

End PeakTokens.

Lemma single_shift_is_not_flagged_singlet :
  Cases.parsePeakData true Cases.singlet
  = Normal (H1Component.Entry
              {| H1Component.peak := H1Component.PStr (Some "7.26");
                 H1Component.peakType := group Cases.singletMatch 3;
                 H1Component.Js := None;
                 H1Component.hydrogenCount :=
                   JS.Number_opt (group Cases.singletMatch 4);
                 H1Component.danger := Some false;
                 H1Component.warning := None;
                 H1Component.peakTypeError := None;
                 H1Component.errMsg := Some "" |}).
Proof.
  apply (single_shift_is_not_flagged true English Sample.h1PeakWithJs
           Cases.h1PeakWithoutJs Tables.JCount Tables.highlightData
           Tables.escapeSpace Cases.singlet "7.26" Cases.singlet
           Cases.singletMatch); reflexivity.
Defined.

Lemma rejected_token_is_closed_unreadable :
  exists token,
    "<danger msg='Invalid format.'>7.26 singlet)</danger>"
    = Tables.highlightData (Tables.escapeSpace token) Danger
        (Some (H1Component.tooltip 1 English))
    /\ Str.includes token ")" = true
    /\ (token = Cases.unreadable
        \/ (Str.includes Cases.unreadable ")" = false
            /\ token = Cases.unreadable ++ ")")).
Proof.
  apply (rejected_token_is_closed true English Sample.h1PeakWithJs
           Cases.h1PeakWithoutJs Tables.JCount Tables.highlightData
           Tables.escapeSpace Cases.unreadable).
  reflexivity.
Defined.

(* ------------------------------------------------------------------ *)
(** ** Printing the peaks *)

Section PeakRendering.

Import H1Component H1Render.

Variable isStrict : bool.
Variable generalChecked : bool.
Variable autoFixJChecked : bool.
Variable currentLanguage : Languages.
Variables h1PeakWithJs h1PeakWithoutJs : bool -> string -> option RegExpMatchArray.
Variable JCount : option string -> option nat.
Variables isPeak isSinglePeak isMultiplePeak : option string -> bool.
Variable isMultiplePeakWithJ : option string -> bool -> bool.
Variable highlightData : string -> HighlightType -> option string -> string.
Variable escapeSpace : string -> string.
Variable numberToString : JS.number -> string.
Variable solventsInfo : string -> option string.
Variable highlightOther :
  NonString -> HighlightType -> option string -> completion string.
Variable handleNMRData : string -> bool -> option NMRData.
Variable matchedData : list string.

#[local] Abbreviation fixEntry :=
  (H1Component.fixEntry generalChecked autoFixJChecked currentLanguage isPeak
     isSinglePeak isMultiplePeak isMultiplePeakWithJ).
#[local] Abbreviation coerced :=
  (H1Component.coerced generalChecked isPeak isSinglePeak isMultiplePeak
     isMultiplePeakWithJ).
#[local] Abbreviation stringifyPeakData :=
  (H1Render.stringifyPeakData highlightData numberToString highlightOther).
#[local] Abbreviation stringifyAll :=
  (H1Render.stringifyAll highlightData numberToString highlightOther).
#[local] Abbreviation renderRecord :=
  (H1Render.renderRecord highlightData numberToString solventsInfo highlightOther).
#[local] Abbreviation renderStrArrays :=
  (H1Render.renderStrArrays highlightData numberToString solventsInfo
     highlightOther).
#[local] Abbreviation render :=
  (H1Render.render highlightData numberToString solventsInfo highlightOther
     matchedData).
#[local] Abbreviation handle :=
  (H1Render.handle isStrict generalChecked autoFixJChecked currentLanguage
     h1PeakWithJs h1PeakWithoutJs JCount isPeak isSinglePeak isMultiplePeak
     isMultiplePeakWithJ highlightData escapeSpace numberToString solventsInfo
     highlightOther handleNMRData matchedData).

(** X12: an entry [fixPeakData] has turned into a multiplet prints as
    the highlighted placeholder for the range, followed by [(m, nH)], in
    the plain pass as in the highlighted one. *)
Theorem coerced_entry_prints_placeholder (willHighlightData : bool)
    (d : H1Data) (f : JS.number) :
  coerced (Entry d) = true ->
  stringifyPeakData willHighlightData (Entry (fixEntry d f))
  = Normal
      (highlightData peakRangePlaceholder Danger
         (Some (Str.of_undefined (peakType d) ++ "            "
                ++ tooltip 10 currentLanguage))
       ++ " " ++ "      " ++ "("
       ++ (if flag (peakTypeError d)
           then highlightData "m" Danger
                  (Some (Str.of_undefined (peakType d) ++ "            "
                         ++ tooltip 10 currentLanguage))
           else "m")
       ++ ", " ++ numberToString (hydrogenCount d) ++ "H)").
Proof.
  destruct d as [p t js h dg w pte em].
  unfold H1Component.coerced, H1Component.fixEntry, markAsMultiplet.
  cbn [peakType]. intros Hc.
  destruct p as [[s|]|l];
    cbn -[tooltip String.append Str.of_undefined H1Render.stringifyPeakData];
    destruct (isPeak t), (isMultiplePeak t), (isSinglePeak t),
      (isMultiplePeakWithJ t (negb generalChecked)); try discriminate Hc;
    cbn; destruct (flag pte); reflexivity.
Qed.

Lemma h1_renderStrArrays_length (w : bool) (objs : list H1RenderObj)
    (out : list string) :
  renderStrArrays w objs = Normal out -> List.length out = List.length objs.
Proof.
  revert out. induction objs as [|o objs IH]; intros out; cbn.
  - intros H; injection H as <-. reflexivity.
  - destruct (renderRecord w o) as [s|]; cbn; [|discriminate].
    destruct (renderStrArrays w objs) as [ss|]; cbn; [|discriminate].
    intros H; injection H as <-. cbn. now rewrite (IH ss eq_refl).
Qed.

Lemma renderObjs_length (index : nat) (metas : list (option Metadata))
    (peakDataObjs : list (list PeakDatum)) (tailArr : list string)
    (errorArr : list (option string)) :
  List.length (renderObjs index metas peakDataObjs tailArr errorArr)
  = List.length metas.
Proof.
  revert index. induction metas as [|m metas IH]; intros index; cbn;
    [reflexivity|]. now rewrite IH.
Qed.

(** X15: [handle] returns the matched texts as input and one plain and
    one highlighted line for every metadata record [handleNMRData]
    found. *)
Theorem one_line_per_metadata (inputtedData : string) (parsedData : NMRData)
    (cd : HrmsComponent.ComponentData) :
  handleNMRData inputtedData isStrict = Some parsedData ->
  handle inputtedData = Normal (Some cd) ->
  HrmsComponent.input cd = matchedData
  /\ List.length (HrmsComponent.outputPlain cd)
     = List.length (metadataArr parsedData)
  /\ List.length (HrmsComponent.outputRich cd)
     = List.length (metadataArr parsedData).
Proof.
  intros Hd. unfold H1Render.handle. rewrite Hd.
  destruct (parseRecords _ _ _ _ _ _ _ _) as [objs|]; cbn [bind]; [|discriminate].
  destruct (fixRecords _ _ _ _ _ _ _ _ _ _) as [fixed|]; cbn [bind]; [|discriminate].
  unfold H1Render.render.
  destruct (renderStrArrays false _) as [plain|] eqn:Hp; cbn [bind]; [|discriminate].
  destruct (renderStrArrays true _) as [rich|] eqn:Hr; cbn [bind]; [|discriminate].
  intros H; injection H as <-.
  cbn [HrmsComponent.input HrmsComponent.outputPlain HrmsComponent.outputRich].
  apply h1_renderStrArrays_length in Hp, Hr. rewrite renderObjs_length in Hp, Hr.
  repeat split; assumption.
Qed.


(** X13: [stringifyPeakData] throws on an entry without a shift, and
    otherwise only where a flag sends a value that is no string to
    [highlightData]: an undefined type with [peakTypeError], or a flagged
    range whose first bound is [<]. *)
Theorem stringifyPeakData_throws_on_ill_typed_only (w : bool) (d : H1Data) :
  (peak d = PStr None -> stringifyPeakData w (Entry d) = TypeError)
  /\ (stringifyPeakData w (Entry d) = TypeError ->
      peak d = PStr None
      \/ (peakType d = None /\ flag (peakTypeError d) = true)
      \/ (exists l, peak d = PArr ("<" :: l) /\ flag (danger d) = true)).
Proof.
  destruct d as [p t js h dg wn pte em]. cbn [peak peakType peakTypeError danger].
  split.
  - intros ->. reflexivity.
  - unfold H1Render.stringifyPeakData, formatPeak, renderOnCondition.
    cbn [peak peakType peakTypeError danger Js warning errMsg hydrogenCount].
    destruct p as [[s|]|l]; [| now left |].
    + destruct (_ && _)%bool; cbn [bind];
        (destruct (flag dg); cbn [bind];
         destruct (flag pte) eqn:Ep, t as [ty|]; cbn [bind];
         try (destruct js as [js|]; [destruct (w && flag wn)%bool|];
              cbn [bind]; intros H; discriminate H);
         intros _; right; left; split; reflexivity).
    + destruct l as [|x l]; cbn [nth_error negb bind].
      * destruct (flag dg); cbn [bind];
          destruct (flag pte) eqn:Ep, t as [ty|]; cbn [bind];
          try (destruct js as [js|]; [destruct (w && flag wn)%bool|];
               cbn [bind]; intros H; discriminate H);
          intros _; right; left; split; reflexivity.
      * destruct (String.eqb_spec x "<") as [->|Hx]; cbn [negb bind].
        -- destruct (flag dg) eqn:Ed; cbn [bind].
           ++ intros _. right. right. exists l. split; reflexivity.
           ++ destruct (flag pte) eqn:Ep, t as [ty|]; cbn [bind];
                try (destruct js as [js|]; [destruct (w && flag wn)%bool|];
                     cbn [bind]; intros H; discriminate H);
                intros _; right; left; split; reflexivity.
        -- destruct (flag dg); cbn [bind];
             destruct (flag pte) eqn:Ep, t as [ty|]; cbn [bind];
             try (destruct js as [js|]; [destruct (w && flag wn)%bool|];
                  cbn [bind]; intros H; discriminate H);
             intros _; right; left; split; reflexivity.
Qed.

(** An entry without a warning is printed the same in both passes. *)
Lemma stringifyPeakData_without_warning (p : PeakDatum) :
  match p with
  | Entry d => flag (warning d) = false
  | Flagged _ => True
  end ->
  stringifyPeakData true p = stringifyPeakData false p.
Proof.
  destruct p as [html|d]; [reflexivity|]. intros Hw.
  unfold H1Render.stringifyPeakData. rewrite Hw. reflexivity.
Qed.

Lemma stringifyAll_without_warning (l : list PeakDatum) :
  Forall (fun p => match p with
                   | Entry d => flag (warning d) = false
                   | Flagged _ => True
                   end) l ->
  stringifyAll true l = stringifyAll false l.
Proof.
  induction 1 as [|p l Hp _ IH]; cbn; [reflexivity|].
  now rewrite (stringifyPeakData_without_warning p Hp), IH.
Qed.

(** X14: where no entry carries a warning, the highlighted line is
    the plain line between [<strong>] and [</strong>]. *)
Theorem highlighted_line_wraps_plain_line (obj : H1RenderObj) (line : string) :
  Forall (fun p => match p with
                   | Entry d => flag (warning d) = false
                   | Flagged _ => True
                   end)
         (match peaks obj with Some l => l | None => [] end) ->
  renderRecord false obj = Normal line ->
  renderRecord true obj = Normal ("<strong>" ++ line ++ "</strong>").
Proof.
  intros Hw. unfold H1Render.renderRecord.
  rewrite (stringifyAll_without_warning _ Hw).
  destruct (match metaErr obj with
            | Some (Some err) => _ | Some None => _ | None => _ end)
    as [headStr|]; cbn [bind]; [|discriminate].
  destruct (stringifyAll false _) as [ss|]; cbn [bind]; [|discriminate].
  intros H; injection H as <-. reflexivity.
Qed.

End PeakRendering.

Lemma coerced_entry_prints_placeholder_dd :
  Cases.stringifyPeakData true
    (H1Component.Entry
       (Cases.fixEntry true true Cases.doubleDoubletEntry Sample.MHz400))
  = Normal
      (Tables.highlightData H1Component.peakRangePlaceholder Danger
         (Some (Str.of_undefined (H1Component.peakType Cases.doubleDoubletEntry)
                ++ "            " ++ H1Component.tooltip 10 English))
       ++ "       (m, " ++ Cases.numberToString
                            (H1Component.hydrogenCount Cases.doubleDoubletEntry)
       ++ "H)").
Proof.
  apply (coerced_entry_prints_placeholder true true English Tables.isPeak
           Tables.isSinglePeak Tables.isMultiplePeak
           Tables.isMultiplePeakWithJ Tables.highlightData Cases.numberToString
           Cases.highlightOther true Cases.doubleDoubletEntry Sample.MHz400).
  reflexivity.
Defined.

Lemma stringifyPeakData_throws_on_shiftless :
  Cases.stringifyPeakData true (H1Component.Entry Cases.shiftless) = TypeError.
Proof.
  apply (proj1 (stringifyPeakData_throws_on_ill_typed_only
                  Tables.highlightData Cases.numberToString
                  Cases.highlightOther true Cases.shiftless)).
  reflexivity.
Defined.

Lemma highlighted_line_wraps_plain_line_nmr :
  Cases.renderRecord true Cases.nmrRecord
  = Normal ("<strong>"
            ++ "<sup>1</sup>H NMR (400 MHz,       CDCl<sub>3</sub>) δ 7.26       (s, 1H)."
            ++ "</strong>").
Proof.
  apply (highlighted_line_wraps_plain_line Tables.highlightData
           Cases.numberToString Cases.solventsInfo Cases.highlightOther
           Cases.nmrRecord).
  - repeat constructor.
  - reflexivity.
Defined.

Lemma one_line_per_metadata_nmr :
  exists cd,
    Cases.handleH1 Cases.nmrLine = Normal (Some cd)
    /\ HrmsComponent.input cd = [Cases.nmrLine]
    /\ List.length (HrmsComponent.outputPlain cd) = 1
    /\ List.length (HrmsComponent.outputRich cd) = 1.
Proof.
  eexists. split; [reflexivity|].
  apply (one_line_per_metadata true false true English Sample.h1PeakWithJs
           Cases.h1PeakWithoutJs Tables.JCount Tables.isPeak
           Tables.isSinglePeak Tables.isMultiplePeak Tables.isMultiplePeakWithJ
           Tables.highlightData Tables.escapeSpace Cases.numberToString
           Cases.solventsInfo Cases.highlightOther Cases.handleNMRData
           [Cases.nmrLine] Cases.nmrLine Cases.nmrData); reflexivity.
Defined.

(* ------------------------------------------------------------------ *)
(** ** The HRMS pipeline *)

Section HrmsPipeline.

Import HrmsComponent.

Variable isStrict : bool.
Variable currentLanguage : Languages.
Variables yieldReg weightReg hrmsReg : string -> option RegExpMatchArray.
Variables sourceReg ionReg dataReg : string -> option RegExpMatchArray.
Variable isValid : string -> bool.
Variable getExactMass : string -> JS.number.
Variables formulaToString formulaToFormattedString : string -> string.
Variable highlightData : string -> HighlightType -> option string -> string.

#[local] Abbreviation getHrmsDataLine :=
  (HrmsComponent.getHrmsDataLine isStrict currentLanguage yieldReg weightReg
     hrmsReg highlightData).
#[local] Abbreviation getHrmsDataArray :=
  (HrmsComponent.getHrmsDataArray isStrict currentLanguage yieldReg weightReg
     hrmsReg highlightData).
#[local] Abbreviation parseHrmsData :=
  (HrmsComponent.parseHrmsData isStrict currentLanguage sourceReg ionReg dataReg
     isValid getExactMass highlightData).
#[local] Abbreviation checkIon :=
  (HrmsComponent.checkIon isStrict currentLanguage highlightData).
#[local] Abbreviation renderChecked :=
  (HrmsComponent.renderChecked currentLanguage formulaToString
     formulaToFormattedString highlightData).
#[local] Abbreviation renderStr :=
  (HrmsComponent.renderStr isStrict currentLanguage formulaToString
     formulaToFormattedString highlightData).
#[local] Abbreviation renderStrArrays :=
  (HrmsComponent.renderStrArrays isStrict currentLanguage formulaToString
     formulaToFormattedString highlightData).
#[local] Abbreviation render :=
  (HrmsComponent.render isStrict currentLanguage formulaToString
     formulaToFormattedString highlightData).
#[local] Abbreviation handle :=
  (HrmsComponent.handle isStrict currentLanguage yieldReg weightReg hrmsReg
     sourceReg ionReg dataReg isValid getExactMass formulaToString
     formulaToFormattedString highlightData).
#[local] Abbreviation checkedRecord := (HrmsComponent.checkedRecord isStrict).

Lemma hrms_renderStrArrays_length (w : bool) (objs : list ParsedData)
    (out : list string) (objs' : list ParsedData) :
  renderStrArrays w objs = Normal (out, objs') ->
  List.length out = List.length objs /\ List.length objs' = List.length objs.
Proof.
  revert out objs'. induction objs as [|o objs IH]; intros out objs'; cbn.
  - intros H; injection H as <- <-. split; reflexivity.
  - destruct (renderStr w o) as [[s o']|]; cbn; [|discriminate].
    destruct (renderStrArrays w objs) as [[ss os]|]; cbn; [|discriminate].
    intros H; injection H as <- <-. destruct (IH ss os eq_refl) as [H1 H2].
    cbn. split; congruence.
Qed.

(** The clause each matching line contributes, in order. *)
Lemma compact_lines (lines : list string) :
  map hrms (compact (map getHrmsDataLine lines))
  = compact (map (fun line =>
                    option_map (fun m => match group m 0 with
                                         | Some s => s
                                         | None => ""
                                         end) (hrmsReg line)) lines).
Proof.
  induction lines as [|l lines IH]; cbn; [reflexivity|].
  unfold HrmsComponent.getHrmsDataLine at 1.
  destruct (hrmsReg l) as [m|]; cbn; [|exact IH]. now rewrite IH.
Qed.

(** [handle] pairs every input with its two lines. *)
Lemma handle_aligned (inputtedData : string) (cd : ComponentData) :
  handle inputtedData = Normal (Some cd) ->
  input cd
  = compact (map (fun line =>
                    option_map (fun m => match group m 0 with
                                         | Some s => s
                                         | None => ""
                                         end) (hrmsReg line))
                 (Str.split "010" inputtedData))
  /\ List.length (outputPlain cd) = List.length (input cd)
  /\ List.length (outputRich cd) = List.length (input cd).
Proof.
  unfold HrmsComponent.handle, HrmsComponent.getHrmsDataArray.
  set (lines := Str.split "010" inputtedData).
  assert (Hr : forall ls,
    HrmsComponent.render isStrict currentLanguage formulaToString
      formulaToFormattedString highlightData
      (compact (map getHrmsDataLine ls))
      (map (fun d => {| p_yield := yield_ d; p_weight := weight d;
                        p_hrms := parseHrmsData (hrms d) |})
           (compact (map getHrmsDataLine ls))) = Normal (Some cd) ->
    input cd = compact (map (fun line =>
                    option_map (fun m => match group m 0 with
                                         | Some s => s
                                         | None => ""
                                         end) (hrmsReg line)) ls)
    /\ List.length (outputPlain cd) = List.length (input cd)
    /\ List.length (outputRich cd) = List.length (input cd)).
  { intros ls. rewrite <- compact_lines. unfold HrmsComponent.render.
    set (valid := compact (map getHrmsDataLine ls)).
    destruct (map hrms valid) as [|x xs] eqn:Hin; [discriminate|].
    rewrite <- Hin.
    destruct (renderStrArrays false _) as [[plain objs]|] eqn:Hp; cbn [bind];
      [|discriminate].
    destruct (renderStrArrays true _) as [[rich objs']|] eqn:Hq; cbn [bind];
      [|discriminate].
    intros H; injection H as <-. cbn [input outputPlain outputRich fst snd].
    apply hrms_renderStrArrays_length in Hp, Hq. cbn [snd] in Hq.
    rewrite !length_map in *. destruct Hp as [Hp1 Hp2], Hq as [Hq1 Hq2].
    repeat split; congruence. }
  destruct lines as [|[|a s] [|l ls]]; try discriminate; apply Hr.
Qed.

(** X16: what [handle] returns is aligned: its input is the HRMS
    clause of every line that has one, in order, and there is one plain
    and one highlighted line for each. *)
Theorem handle_outputs_aligned (inputtedData : string) (cd : ComponentData) :
  handle inputtedData = Normal (Some cd) ->
  input cd
  = compact (map (fun line =>
                    option_map (fun m => match group m 0 with
                                         | Some s => s
                                         | None => ""
                                         end) (hrmsReg line))
                 (Str.split "010" inputtedData))
  /\ List.length (outputPlain cd) = List.length (input cd)
  /\ List.length (outputRich cd) = List.length (input cd).
Proof.
  exact (handle_aligned inputtedData cd).
Qed.


Lemma compact_nil_iff (lines : list string) :
  compact (map getHrmsDataLine lines) = []
  <-> Forall (fun line => hrmsReg line = None) lines.
Proof.
  induction lines as [|l lines IH]; cbn.
  - split; [constructor|reflexivity].
  - unfold HrmsComponent.getHrmsDataLine at 1.
    destruct (hrmsReg l) as [m|] eqn:E.
    + split; [discriminate|]. intros H. inversion H; congruence.
    + rewrite IH. split; [now constructor|]. intros H. now inversion H.
Qed.

(** X17: [handle] returns [null] exactly when the text is empty or no
    line of it has an HRMS clause. *)
Theorem handle_null_iff_no_clause (inputtedData : string) :
  handle inputtedData = Normal None
  <-> Str.split "010" inputtedData = [""]
      \/ Forall (fun line => hrmsReg line = None) (Str.split "010" inputtedData).
Proof.
  unfold HrmsComponent.handle, HrmsComponent.getHrmsDataArray.
  set (lines := Str.split "010" inputtedData).
  assert (Hr : forall ls,
    HrmsComponent.render isStrict currentLanguage formulaToString
      formulaToFormattedString highlightData
      (compact (map getHrmsDataLine ls))
      (map (fun d => {| p_yield := yield_ d; p_weight := weight d;
                        p_hrms := parseHrmsData (hrms d) |})
           (compact (map getHrmsDataLine ls))) = Normal None
    <-> Forall (fun line => hrmsReg line = None) ls).
  { intros ls. rewrite <- compact_nil_iff. unfold HrmsComponent.render.
    destruct (compact (map getHrmsDataLine ls)) as [|x xs]; cbn [map].
    - split; reflexivity.
    - destruct (renderStrArrays false _) as [[plain objs]|]; cbn [bind].
      + destruct (renderStrArrays true _) as [[rich objs']|]; cbn [bind];
          split; discriminate.
      + split; discriminate. }
  destruct lines as [|[|a s] [|l ls]].
  - rewrite Hr. split; [now right|]. intros [H|H]; [discriminate H|exact H].
  - split; [now left|reflexivity].
  - rewrite Hr. split; [now right|]. intros [H|H]; [discriminate H|exact H].
  - rewrite Hr. split; [now right|]. intros [H|H]; [discriminate H|exact H].
  - rewrite Hr. split; [now right|]. intros [H|H]; [discriminate H|exact H].
Qed.

Lemma renderStr_lenient (w : bool) (obj : ParsedData) :
  isStrict = false -> renderStr w obj <> TypeError.
Proof.
  intros Hs. unfold HrmsComponent.renderStr. rewrite Hs.
  destruct (p_hrms obj); discriminate.
Qed.

Lemma renderStrArrays_throws_iff (w : bool) (objs : list ParsedData) :
  renderStrArrays w objs = TypeError
  <-> Exists (fun obj => renderStr w obj = TypeError) objs.
Proof.
  induction objs as [|o objs IH]; cbn.
  - split; [discriminate|]. intros H. inversion H.
  - destruct (renderStr w o) as [[s o']|] eqn:E; cbn.
    + destruct (renderStrArrays w objs) as [[ss os]|]; cbn.
      * split; [discriminate|]. intros H. inversion H; subst; [congruence|].
        apply IH in H1. discriminate H1.
      * split; [|reflexivity]. intros _. apply Exists_cons_tl. now apply IH.
    + split; [|reflexivity]. intros _. now apply Exists_cons_hd.
Qed.

(** X18: in lenient mode [handle] never throws. *)
Theorem lenient_mode_never_throws (inputtedData : string) :
  isStrict = false -> handle inputtedData <> TypeError.
Proof.
  intros Hs.
  assert (Harr : forall w objs, renderStrArrays w objs <> TypeError).
  { intros w objs H. apply renderStrArrays_throws_iff in H.
    apply Exists_exists in H. destruct H as (o & _ & H).
    exact (renderStr_lenient w o Hs H). }
  unfold HrmsComponent.handle.
  destruct (getHrmsDataArray inputtedData) as [arr|]; [|discriminate].
  unfold HrmsComponent.render.
  destruct (map hrms (compact arr)); [discriminate|].
  destruct (renderStrArrays false _) as [[plain objs]|] eqn:Hp; cbn [bind].
  - destruct (renderStrArrays true _) as [[rich objs']|] eqn:Hq; cbn [bind];
      [discriminate|]. exfalso. exact (Harr _ _ Hq).
  - exfalso. exact (Harr _ _ Hp).
Qed.

(** X19: in strict mode a record throws in [renderStrArrays] exactly
    when its exact mass has no decimal point, or its exact mass has four
    decimals and its found mass has no decimal point. *)
Theorem strict_mode_throws_on_mass_without_point (w : bool) (obj : ParsedData)
    (h : HrmsData) :
  isStrict = true ->
  p_hrms obj = Record_ h ->
  (renderStr w obj = TypeError
   <-> fraction (exactMass h) = None
       \/ (decimalsOk (exactMass h) = true /\ fraction (foundMass h) = None)).
Proof.
  intros Hs Hobj. unfold HrmsComponent.renderStr, decimalsOk.
  rewrite Hobj, Hs.
  destruct (fraction (exactMass h)) as [fe|]; cbn [bind].
  - unfold requiredDecimal.
    destruct (Nat.eqb (String.length fe) 4); cbn [negb].
    + destruct (fraction (foundMass h)) as [ff|]; cbn [bind].
      * split.
        -- destruct (negb _); [discriminate|]. destruct (JS.gtb _ _); discriminate.
        -- intros [H|[_ H]]; discriminate H.
      * split; [|reflexivity]. intros _. right. split; reflexivity.
    + split; [discriminate|]. intros [H|[H _]]; discriminate H.
  - split; [|reflexivity]. intros _. now left.
Qed.

(** X20: the plain pass never annotates: its line is the clause as
    typed, or, for a record found consistent, the clause with the
    formula normalised. *)
Theorem plain_pass_never_annotates (obj obj' : ParsedData) (h : HrmsData)
    (line : string) :
  p_hrms obj = Record_ h ->
  renderStr false obj = Normal (line, obj') ->
  line = data h
  \/ (inconsistent (checkedRecord h) = false
      /\ line = Str.replace (data h) (formula h) (formulaToString (formula h))).
Proof.
  intros Hobj. unfold HrmsComponent.renderStr. rewrite Hobj.
  assert (Hc : forall k, data k = data h -> formula k = formula h ->
            renderChecked false k = data h
            \/ (inconsistent k = false
                /\ renderChecked false k
                   = Str.replace (data h) (formula h) (formulaToString (formula h)))).
  { intros k Hd Hf. unfold HrmsComponent.renderChecked.
    fold (inconsistent k). destruct (inconsistent k).
    - left. unfold HrmsComponent.dangerOnCondition. exact Hd.
    - right. split; [reflexivity|]. now rewrite Hd, Hf. }
  unfold HrmsComponent.checkedRecord. destruct isStrict.
  - destruct (fraction (exactMass h)) as [fe|]; cbn [bind]; [|discriminate].
    destruct (negb _).
    { intros H; injection H as <- _. now left. }
    destruct (fraction (foundMass h)) as [ff|]; cbn [bind]; [|discriminate].
    destruct (negb _).
    { intros H; injection H as <- _. now left. }
    destruct (JS.gtb _ _).
    { intros H; injection H as <- _. now left. }
    intros H; injection H as <- _.
    destruct (Hc h eq_refl eq_refl) as [H|[H1 H2]]; [now left|right; now split].
  - intros H; injection H as <- _.
    destruct (Hc (set_exactMass (JS.toFixed (JS.Number (exactMass h)) 4) h)
                 eq_refl eq_refl) as [H|[H1 H2]]; [now left|right; now split].
Qed.


Lemma nonEmpty_some (v : option string) (s : string) :
  nonEmpty v = Some s -> v = Some s /\ s <> "".
Proof.
  destruct v as [[|a t]|]; cbn; try discriminate.
  intros H; injection H as <-. split; [reflexivity|discriminate].
Qed.

Lemma checkIon_strict_separator (hrmsData : string) (ionMatch : RegExpMatchArray)
    (ion : string) :
  isStrict = true ->
  checkIon hrmsData ionMatch = inr ion ->
  ion <> "" ->
  or_else (group ionMatch 1) (group ionMatch 3) = Some " + ".
Proof.
  intros Hs. unfold HrmsComponent.checkIon. rewrite Hs.
  destruct (or_else (group ionMatch 2) (group ionMatch 4)) as [[|a i]|];
    [| |discriminate].
  - destruct (or_else (group ionMatch 1) (group ionMatch 3)) as [[|b s]|];
      try discriminate.
    intros H; injection H as <-. contradiction.
  - destruct (Str.mem ionList (String a i)); [|discriminate].
    destruct (or_else (group ionMatch 1) (group ionMatch 3)) as [s|];
      cbn [andb negb]; [|discriminate].
    destruct (String.eqb_spec s " + "); cbn [negb]; [|discriminate].
    intros _ _. now subst s.
Qed.

(** X21: a clause [parseHrmsData] accepts gives a record that holds
    the clause itself, a source of the vocabulary, a valid formula and
    non-empty formula and masses; in strict mode a non-empty ion was
    written with [ + ] between its parts. *)
Theorem parsed_record_is_well_formed (hrmsData : string) (h : HrmsData) :
  parseHrmsData hrmsData = Record_ h ->
  data h = hrmsData
  /\ existsb (fun availableSource => Str.includes (source h) availableSource)
             sourceList = true
  /\ isValid (formula h) = true
  /\ formula h <> "" /\ exactMass h <> "" /\ foundMass h <> ""
  /\ (isStrict = true -> ion h <> "" ->
      exists ionMatch,
        ionReg hrmsData = Some ionMatch
        /\ or_else (group ionMatch 1) (group ionMatch 3) = Some " + ").
Proof.
  unfold HrmsComponent.parseHrmsData.
  destruct (sourceReg hrmsData) as [sourceMatch|]; [|discriminate].
  destruct (group sourceMatch 1) as [src|]; [|discriminate].
  destruct (existsb _ sourceList) eqn:Hsrc; cbn [negb]; [|discriminate].
  destruct (ionReg hrmsData) as [ionMatch|]; [|discriminate].
  destruct (checkIon hrmsData ionMatch) as [html|i] eqn:Hion; [discriminate|].
  destruct (dataReg hrmsData) as [dataMatch|]; [|discriminate].
  destruct (nonEmpty (group dataMatch 1)) as [f|] eqn:Hf; [|discriminate].
  destruct (nonEmpty (group dataMatch 3)) as [e|] eqn:He; [|discriminate].
  destruct (nonEmpty (group dataMatch 4)) as [fd|] eqn:Hfd; [|discriminate].
  destruct (isValid f) eqn:Hv; cbn [negb]; [|discriminate].
  intros H; injection H as <-.
  cbn [data source formula exactMass foundMass ion].
  apply nonEmpty_some in Hf, He, Hfd.
  destruct Hf as [_ Hf], He as [_ He], Hfd as [_ Hfd].
  repeat split; try assumption.
  intros Hs Hne. exists ionMatch. split; [reflexivity|].
  exact (checkIon_strict_separator _ _ _ Hs Hion Hne).
Qed.


End HrmsPipeline.

Lemma handle_outputs_aligned_good :
  exists cd,
    Sample.handle true Sample.good = Normal (Some cd)
    /\ HrmsComponent.input cd
       = HrmsComponent.compact
           (map (fun line =>
                   option_map (fun m => match group m 0 with
                                        | Some s => s
                                        | None => ""
                                        end) (Sample.hrmsReg line))
                (Str.split "010" Sample.good))
    /\ List.length (HrmsComponent.outputPlain cd)
       = List.length (HrmsComponent.input cd)
    /\ List.length (HrmsComponent.outputRich cd)
       = List.length (HrmsComponent.input cd).
Proof.
  eexists. split; [reflexivity|].
  apply (handle_outputs_aligned true English Sample.yieldReg Sample.weightReg
           Sample.hrmsReg Sample.sourceReg Sample.ionReg Sample.dataReg
           Sample.isValid Sample.getExactMass Sample.formulaToString
           Sample.formulaToFormattedString Tables.highlightData Sample.good).
  reflexivity.
Defined.

Lemma lenient_mode_never_throws_no_point :
  Sample.handle false Cases.noPoint <> TypeError.
Proof.
  apply (lenient_mode_never_throws false English Sample.yieldReg
           Sample.weightReg Sample.hrmsReg Sample.sourceReg Sample.ionReg
           Sample.dataReg Sample.isValid Sample.getExactMass
           Sample.formulaToString Sample.formulaToFormattedString
           Tables.highlightData Cases.noPoint).
  reflexivity.
Defined.

Lemma strict_mode_throws_on_mass_without_point_sample :
  Sample.renderStr true true (Sample.parsed Cases.noPointRecord) = TypeError.
Proof.
  apply (proj2 (strict_mode_throws_on_mass_without_point true English
                  Sample.formulaToString Sample.formulaToFormattedString
                  Tables.highlightData true (Sample.parsed Cases.noPointRecord)
                  Cases.noPointRecord eq_refl eq_refl)).
  left. reflexivity.
Defined.

Lemma plain_pass_never_annotates_farOff :
  Sample.farOff = HrmsComponent.data Sample.farOffRecord
  \/ (HrmsComponent.inconsistent
        (HrmsComponent.checkedRecord true Sample.farOffRecord) = false
      /\ Sample.farOff
         = Str.replace (HrmsComponent.data Sample.farOffRecord)
             (HrmsComponent.formula Sample.farOffRecord)
             (Sample.formulaToString
                (HrmsComponent.formula Sample.farOffRecord))).
Proof.
  apply (plain_pass_never_annotates true English Sample.formulaToString
           Sample.formulaToFormattedString Tables.highlightData
           (Sample.parsed Sample.farOffRecord)
           (Sample.parsed Sample.farOffRecord) Sample.farOffRecord
           Sample.farOff); reflexivity.
Defined.

Lemma parsed_record_is_well_formed_good :
  HrmsComponent.data Sample.goodRecord = Sample.good
  /\ existsb (fun availableSource =>
                Str.includes (HrmsComponent.source Sample.goodRecord)
                             availableSource)
             HrmsComponent.sourceList = true
  /\ Sample.isValid (HrmsComponent.formula Sample.goodRecord) = true
  /\ HrmsComponent.formula Sample.goodRecord <> ""
  /\ HrmsComponent.exactMass Sample.goodRecord <> ""
  /\ HrmsComponent.foundMass Sample.goodRecord <> ""
  /\ (true = true -> HrmsComponent.ion Sample.goodRecord <> "" ->
      exists ionMatch,
        Sample.ionReg Sample.good = Some ionMatch
        /\ or_else (group ionMatch 1) (group ionMatch 3) = Some " + ").
Proof.
  apply (parsed_record_is_well_formed true English Sample.sourceReg
           Sample.ionReg Sample.dataReg Sample.isValid Sample.getExactMass
           Tables.highlightData Sample.good Sample.goodRecord).
  reflexivity.
Defined.


(* ------------------------------------------------------------------ *)
(** ** The lenient coercion of the exact mass *)

Section DecimalStrings.

Import Decimals.





























End DecimalStrings.

Section HrmsCoercion.

Import HrmsComponent Decimals.

Variable currentLanguage : Languages.
Variables formulaToString formulaToFormattedString : string -> string.
Variable highlightData : string -> HighlightType -> option string -> string.

#[local] Abbreviation renderChecked :=
  (HrmsComponent.renderChecked currentLanguage formulaToString
     formulaToFormattedString highlightData).
#[local] Abbreviation renderStr :=
  (HrmsComponent.renderStr false currentLanguage formulaToString
     formulaToFormattedString highlightData).



End HrmsCoercion.


(* ------------------------------------------------------------------ *)
(** ** The page *)

Section Page.

Import HrmsComponent AppComponent.

Variable highlightData : string -> HighlightType -> option string -> string.
Variable highlightUndefined : HighlightType -> completion string.

#[local] Abbreviation richStep :=
  (AppComponent.richStep highlightData highlightUndefined).
#[local] Abbreviation richInputs :=
  (AppComponent.richInputs highlightData highlightUndefined).
#[local] Abbreviation richComponents :=
  (AppComponent.richComponents highlightData highlightUndefined).
#[local] Abbreviation render :=
  (AppComponent.render highlightData highlightUndefined).

Lemma breakLines_no_line_feed (s : string) :
  ~ In "010"%char (list_ascii_of_string (breakLines s)).
Proof.
  induction s as [|a s IH]; cbn; [intros H; exact H|].
  destruct (Ascii.eqb_spec a "010"); cbn.
  - intros [H|[H|[H|[H|H]]]]; try discriminate H. exact (IH H).
  - intros [H|H]; [congruence|exact (IH H)].
Qed.

Lemma plainInputs_no_line_feed (inputs : list string) (index : nat)
    (outputs : list string) (t : string) :
  inputs <> [] \/ ~ In "010"%char (list_ascii_of_string t) ->
  ~ In "010"%char (list_ascii_of_string (plainInputs inputs index outputs t)).
Proof.
  revert index t. induction inputs as [|i inputs IH]; intros index t H; cbn.
  - destruct H as [H|H]; [contradiction|exact H].
  - apply IH. right. apply breakLines_no_line_feed.
Qed.

Lemma richInputs_no_line_feed (inputs : list string) (index : nat)
    (outputs : list string) (t html : string) :
  richInputs inputs index outputs t = Normal html ->
  inputs <> [] \/ ~ In "010"%char (list_ascii_of_string t) ->
  ~ In "010"%char (list_ascii_of_string html).
Proof.
  revert index t. induction inputs as [|i inputs IH]; intros index t; cbn.
  - intros H; injection H as <-. intros [H|H]; [contradiction|exact H].
  - unfold AppComponent.richStep at 1.
    destruct (match nth_error outputs index with
              | Some out => _ | None => _ end) as [r|]; cbn [bind];
      [|discriminate].
    intros H _. apply (IH _ _ H). right. apply breakLines_no_line_feed.
Qed.

(** X23: once a component has contributed an input, neither the text
    copied to the clipboard nor the HTML written to the page holds a
    line feed. *)
Theorem rendered_text_has_no_line_feed (inputValue : string) (autoCopy : bool)
    (componentsData : list ComponentData) :
  Exists (fun cd => input cd <> []) componentsData ->
  (forall copied, fst (render inputValue autoCopy componentsData) = Some copied ->
     ~ In "010"%char (list_ascii_of_string copied))
  /\ (forall html, snd (render inputValue autoCopy componentsData) = Normal html ->
     ~ In "010"%char (list_ascii_of_string html)).
Proof.
  intros Hex. unfold AppComponent.render. cbn [fst snd]. split.
  - intros copied. destruct autoCopy; [|discriminate].
    intros H; injection H as <-.
    assert (Hgen : forall cds t,
      Exists (fun cd => input cd <> []) cds
      \/ ~ In "010"%char (list_ascii_of_string t) ->
      ~ In "010"%char (list_ascii_of_string (plainComponents cds t))).
    { induction cds as [|cd cds IH]; intros t Ht; cbn.
      - destruct Ht as [Ht|Ht]; [inversion Ht|exact Ht].
      - apply IH. destruct Ht as [Ht|Ht].
        + inversion Ht; subst; [right|now left].
          apply plainInputs_no_line_feed. now left.
        + right. apply plainInputs_no_line_feed. now right. }
    apply Hgen. now left.
  - assert (Hgen : forall cds t html,
      richComponents cds t = Normal html ->
      Exists (fun cd => input cd <> []) cds
      \/ ~ In "010"%char (list_ascii_of_string t) ->
      ~ In "010"%char (list_ascii_of_string html)).
    { induction cds as [|cd cds IH]; intros t html; cbn.
      - intros H; injection H as <-. intros [Ht|Ht]; [inversion Ht|exact Ht].
      - destruct (richInputs (input cd) 0 (outputRich cd) t) as [t'|] eqn:E;
          cbn [bind]; [|discriminate].
        intros H Ht. apply (IH _ _ H). destruct Ht as [Ht|Ht].
        + inversion Ht; subst; [right|now left].
          apply (richInputs_no_line_feed _ _ _ _ _ E). now left.
        + right. apply (richInputs_no_line_feed _ _ _ _ _ E). now right. }
    intros html H. apply (Hgen _ _ _ H). now left.
Qed.

Lemma richInputs_in_range (inputs : list string) (index : nat)
    (outputs : list string) (t : string) :
  List.length inputs + index <= List.length outputs ->
  richInputs inputs index outputs t <> TypeError.
Proof.
  revert index t. induction inputs as [|i inputs IH]; intros index t Hl; cbn.
  - discriminate.
  - unfold AppComponent.richStep at 1.
    destruct (nth_error outputs index) as [out|] eqn:E; cbn [bind].
    + apply IH. cbn in Hl. lia.
    + apply nth_error_None in E. cbn in Hl. lia.
Qed.

(** Components with a highlighted line for every input never send
    [undefined] to [highlightData]. *)
Lemma aligned_components_render (inputValue : string) (autoCopy : bool)
    (componentsData : list ComponentData) :
  Forall (fun cd => List.length (input cd) <= List.length (outputRich cd))
         componentsData ->
  snd (render inputValue autoCopy componentsData) <> TypeError.
Proof.
  unfold AppComponent.render. cbn [snd]. revert inputValue.
  induction componentsData as [|cd cds IH]; intros t Hall; cbn.
  - discriminate.
  - inversion Hall as [|? ? Hcd Hrest]; subst.
    destruct (richInputs (input cd) 0 (outputRich cd) t) as [t'|] eqn:E;
      cbn [bind].
    + apply IH. exact Hrest.
    + exfalso. apply (richInputs_in_range (input cd) 0 (outputRich cd) t);
        [lia|exact E].
Qed.

End Page.

Section HrmsOnPage.

Import HrmsComponent.

Variable isStrict : bool.
Variable currentLanguage : Languages.
Variables yieldReg weightReg hrmsReg : string -> option RegExpMatchArray.
Variables sourceReg ionReg dataReg : string -> option RegExpMatchArray.
Variable isValid : string -> bool.
Variable getExactMass : string -> JS.number.
Variables formulaToString formulaToFormattedString : string -> string.
Variable highlightData : string -> HighlightType -> option string -> string.
Variable highlightUndefined : HighlightType -> completion string.

#[local] Abbreviation handle :=
  (HrmsComponent.handle isStrict currentLanguage yieldReg weightReg hrmsReg
     sourceReg ionReg dataReg isValid getExactMass formulaToString
     formulaToFormattedString highlightData).

(** X24: whatever the HRMS component returns, the page renders without
    sending [undefined] to [highlightData]: every input has its
    highlighted line. *)
Theorem hrms_lines_render_on_page (inputValue : string) (autoCopy : bool)
    (componentsData : list ComponentData) :
  Forall (fun cd => exists inputtedData, handle inputtedData = Normal (Some cd))
         componentsData ->
  snd (AppComponent.render highlightData highlightUndefined inputValue autoCopy
         componentsData) <> TypeError.
Proof.
  intros Hall. apply aligned_components_render.
  apply Forall_forall. intros cd Hin.
  rewrite Forall_forall in Hall. destruct (Hall cd Hin) as (text & Hcd).
  destruct (handle_aligned isStrict currentLanguage yieldReg weightReg
              hrmsReg sourceReg ionReg dataReg isValid getExactMass
              formulaToString formulaToFormattedString highlightData text cd Hcd)
    as (_ & _ & Hrich).
  rewrite Hrich. apply Nat.le_refl.
Qed.

End HrmsOnPage.

Lemma rendered_text_has_no_line_feed_description :
  (forall copied,
     fst (Cases.renderPage Cases.description true [Cases.hrmsData]) = Some copied ->
     ~ In "010"%char (list_ascii_of_string copied))
  /\ (forall html,
        snd (Cases.renderPage Cases.description true [Cases.hrmsData])
        = Normal html ->
        ~ In "010"%char (list_ascii_of_string html)).
Proof.
  apply (rendered_text_has_no_line_feed Tables.highlightData
           (fun _ => TypeError) Cases.description true [Cases.hrmsData]).
  apply Exists_cons_hd. discriminate.
Defined.

Lemma hrms_lines_render_on_page_description :
  snd (Cases.renderPage Cases.description true [Cases.hrmsData]) <> TypeError.
Proof.
  apply (hrms_lines_render_on_page true English Sample.yieldReg Sample.weightReg
           Sample.hrmsReg Sample.sourceReg Sample.ionReg Sample.dataReg
           Sample.isValid Sample.getExactMass Sample.formulaToString
           Sample.formulaToFormattedString Tables.highlightData
           (fun _ => TypeError) Cases.description true [Cases.hrmsData]).
  constructor; [|constructor].
  exists Cases.description. reflexivity.
Defined.
